(** * libsigrokdecode: the DMX512 and SPI-flash protocol decoders

    A shallow embedding of [decoders/dmx512/pd.py] and
    [decoders/spiflash/pd.py].  Python integers are [Z], Python floats are
    IEEE-754 binary64 values ([spec_float] with precision 53), attributes of
    [self] are the fields of a record threaded through a small
    state/output/exception monad, and [self.put] on the annotation output
    appends an [Annotation] to the output of the run. *)

From stdpp Require Import base option list gmap strings.
From Stdlib Require Import ZArith Lia Bool.
From Stdlib Require Import Floats.SpecFloat.
From Stdlib Require Floats.PrimFloat Floats.FloatOps Floats.FloatAxioms.
From Stdlib Require Numbers.Cyclic.Int63.Uint63.
From Stdlib Require DecimalString HexadecimalString.

Local Open Scope Z_scope.

(** ** Python exceptions and annotation records *)

Inductive PyError :=
| Exception (msg : string)
| ZeroDivisionError
| OverflowError
| ValueError
| TypeError
| AttributeError
| KeyError.

(** [self.put(ss, es, self.out_ann, [cls, [text, ...]])]. *)
Record Annotation := Ann {
  ann_ss : Z;
  ann_es : Z;
  ann_class : Z;
  ann_text : list string
}.

(** ** Python floats (binary64) and the mixed int/float arithmetic used *)

Module PyFloat.

Definition prec : Z := 53.
Definition emax : Z := 1024.
Definition float := spec_float.

Definition is_finite (f : float) : bool :=
  match f with
  | S754_zero _ | S754_finite _ _ _ => true
  | _ => false
  end.

Definition is_zero (f : float) : bool :=
  match f with S754_zero _ => true | _ => false end.

(** [float(z)]: nearest binary64, ties to even; too large an int raises. *)
Definition of_int (z : Z) : PyError + float :=
  let f := binary_normalize prec emax z 0 false in
  if is_finite f then inr f else inl OverflowError.

(** [a / b] on two ints: the correctly rounded quotient.  As in CPython,
    operands below [2 ^ 53] are converted exactly and divided as floats;
    otherwise the quotient is taken with at least 55 significant bits and a
    sticky bit, then rounded once. *)
Definition int_truediv (a b : Z) : PyError + float :=
  if b =? 0 then inl ZeroDivisionError
  else if a =? 0 then inr (S754_zero (b <? 0))
  else if (Z.abs a <? 2 ^ 53) && (Z.abs b <? 2 ^ 53) then
    inr (SFdiv prec emax (binary_normalize prec emax a 0 false)
                         (binary_normalize prec emax b 0 false))
  else
    let k := Z.max 0 (56 + Z.log2 (Z.abs b) - Z.log2 (Z.abs a)) in
    let n := Z.abs a * 2 ^ k in
    let q := n / Z.abs b in
    let sticky := if n mod Z.abs b =? 0 then 0 else 1 in
    let m := 2 * q + sticky in
    let f := binary_normalize prec emax
               (if xorb (a <? 0) (b <? 0) then - m else m) (- k - 1) false in
    if is_finite f then inr f else inl OverflowError.

(** [x * y] on floats never raises. *)
Definition mul (x y : float) : float := SFmul prec emax x y.

(** [x / y] on floats raises on a zero divisor. *)
Definition div (x y : float) : PyError + float :=
  if is_zero y then inl ZeroDivisionError else inr (SFdiv prec emax x y).

(** [z * x] with [z] an int and [x] a float. *)
Definition int_mul (z : Z) (x : float) : PyError + float :=
  match of_int z with
  | inl e => inl e
  | inr fz => inr (mul fz x)
  end.

(** [x * z] with [x] a float and [z] an int. *)
Definition mul_int (x : float) (z : Z) : PyError + float :=
  match of_int z with
  | inl e => inl e
  | inr fz => inr (mul x fz)
  end.

(** [z / x] with [z] an int and [x] a float. *)
Definition int_div (z : Z) (x : float) : PyError + float :=
  match of_int z with
  | inl e => inl e
  | inr fz => div fz x
  end.

(** [int(x)]: truncation towards zero. *)
Definition to_int (x : float) : PyError + Z :=
  match x with
  | S754_zero _ => inr 0
  | S754_infinity _ => inl OverflowError
  | S754_nan => inl ValueError
  | S754_finite s m e =>
      let v := if 0 <=? e then Z.pos m * 2 ^ e else Z.pos m / 2 ^ (- e) in
      inr (if s then - v else v)
  end.

(** [round(x)]: nearest integer, ties to even. *)
Definition round (x : float) : PyError + Z :=
  match x with
  | S754_zero _ => inr 0
  | S754_infinity _ => inl OverflowError
  | S754_nan => inl ValueError
  | S754_finite s m e =>
      let v :=
        if 0 <=? e then Z.pos m * 2 ^ e
        else
          let d := 2 ^ (- e) in
          let q := Z.pos m / d in
          let r := Z.pos m mod d in
          match 2 * r ?= d with
          | Lt => q
          | Gt => q + 1
          | Eq => if Z.even q then q else q + 1
          end in
      inr (if s then - v else v)
  end.

(** Exact comparison of a float with an int ([None] for a NaN, on which
    every ordering test is false). *)
Definition compare_int (x : float) (z : Z) : option comparison :=
  match x with
  | S754_zero _ => Some (0 ?= z)
  | S754_infinity s => Some (if s then Lt else Gt)
  | S754_nan => None
  | S754_finite s m e =>
      let v := if s then Z.neg m else Z.pos m in
      if 0 <=? e then Some (v * 2 ^ e ?= z) else Some (v ?= z * 2 ^ (- e))
  end.

(** [x > z] and [x < z]. *)
Definition gt_int (x : float) (z : Z) : bool :=
  match compare_int x z with Some Gt => true | _ => false end.
Definition lt_int (x : float) (z : Z) : bool :=
  match compare_int x z with Some Lt => true | _ => false end.

End PyFloat.

(** ** Python string formatting *)

Module PyStr.

(** [str(z)] and ['%d' % z]. *)
Definition str (z : Z) : string :=
  DecimalString.NilZero.string_of_int (Z.to_int z).

Definition hexdigits (z : Z) : string :=
  HexadecimalString.NilZero.string_of_uint (N.to_hex_uint (Z.to_N (Z.abs z))).

Definition sign (z : Z) : string := if z <? 0 then "-"%string else ""%string.

(** [hex(z)]. *)
Definition hex (z : Z) : string := (sign z ++ "0x" ++ hexdigits z)%string.

Fixpoint zeros (n : nat) : string :=
  match n with
  | O => ""
  | S n' => ("0" ++ zeros n')%string
  end.

(** ['%0<w>x' % z]: the sign counts towards the width. *)
Definition hex_pad (w : nat) (z : Z) : string :=
  let ds := hexdigits z in
  (sign z ++ zeros (w - String.length (sign z) - String.length ds) ++ ds)%string.

(** [sep.join(l)]. *)
Fixpoint join (sep : string) (l : list string) : string :=
  match l with
  | [] => ""
  | [s] => s
  | s :: rest => (s ++ sep ++ join sep rest)%string
  end.

End PyStr.

(** ** Execution monad: state of [self], emitted annotations, exceptions

    A raised exception keeps the mutations and the annotations made before
    it, as a Python exception leaves the object. *)

Section Exec.
Context {St : Type}.

Record Outcome (A : Type) := MkOut {
  out_state : St;
  out_anns : list Annotation;
  out_res : PyError + A
}.
Global Arguments MkOut {A} _ _ _.
Global Arguments out_state {A} _.
Global Arguments out_anns {A} _.
Global Arguments out_res {A} _.

Definition Py (A : Type) : Type := St -> Outcome A.

Definition ret {A} (a : A) : Py A := fun s => MkOut s [] (inr a).

Definition raise {A} (e : PyError) : Py A := fun s => MkOut s [] (inl e).

Definition bind {A B} (m : Py A) (k : A -> Py B) : Py B := fun s =>
  match m s with
  | MkOut s1 a1 (inl e) => MkOut s1 a1 (inl e)
  | MkOut s1 a1 (inr x) =>
      match k x s1 with
      | MkOut s2 a2 r => MkOut s2 (a1 ++ a2) r
      end
  end.

Definition gets {A} (f : St -> A) : Py A := fun s => MkOut s [] (inr (f s)).

Definition modify (f : St -> St) : Py unit := fun s => MkOut (f s) [] (inr tt).

Definition emit (a : Annotation) : Py unit := fun s => MkOut s [a] (inr tt).

(** A pure computation that may raise. *)
Definition lift {A} (r : PyError + A) : Py A :=
  match r with
  | inl e => raise e
  | inr a => ret a
  end.

(** Reading an attribute that is unset ([None] here) in an expression. *)
Definition attr {A} (f : St -> option A) (e : PyError) : Py A := fun s =>
  match f s with
  | Some a => MkOut s [] (inr a)
  | None => MkOut s [] (inl e)
  end.

(** [try: m  except KeyError: h]. *)
Definition try_except_KeyError (m h : Py unit) : Py unit := fun s =>
  match m s with
  | MkOut s1 a1 (inl KeyError) =>
      match h s1 with
      | MkOut s2 a2 r => MkOut s2 (a1 ++ a2) r
      end
  | o => o
  end.

Definition when (b : bool) (m : Py unit) : Py unit :=
  if b then m else ret tt.

End Exec.

Notation "x <- m ;; k" := (bind m (fun x => k))
  (at level 100, m at next level, right associativity).
Notation "m ;;; k" := (bind m (fun _ => k))
  (at level 100, right associativity).


(** [for x in l: body(x)]. *)
Fixpoint for_each {St A : Type} (body : A -> @Py St unit) (l : list A) : @Py St unit :=
  match l with
  | [] => ret tt
  | x :: rest => body x ;;; for_each body rest
  end.

(** [a << n] on ints. *)
Definition py_shl (a n : Z) : PyError + Z :=
  if n <? 0 then inl ValueError else inr (Z.shiftl a n).

(** * decoders/dmx512/pd.py *)

Module Dmx512.

(** The four values [self.state] takes. *)
Inductive State := FIND_BREAK | MARK_MAB | READ_BYTE | MARK_IFT.

(** The attributes of the decoder object.  [samplerate] and [sample_usec]
    start as [None]; [skip_per_bit] does not exist before [metadata] sets
    it.  [bit_break], [channel], [bit], [aggreg], [byte] and [next_sample]
    are created by their first assignment, which on every path from
    [__init__] precedes their first read; they start at 0 here. *)
Record Decoder := MkDecoder {
  samplerate : option Z;
  sample_usec : option PyFloat.float;
  skip_per_bit : option Z;
  samplenum : Z;
  run_start : Z;
  run_bit : Z;
  state : State;
  bit_break : Z;
  channel : Z;
  bit : Z;
  aggreg : Z;
  byte : Z;
  next_sample : Z
}.

Definition set_samplerate v d := MkDecoder v (sample_usec d) (skip_per_bit d) (samplenum d) (run_start d) (run_bit d) (state d) (bit_break d) (channel d) (bit d) (aggreg d) (byte d) (next_sample d).
Definition set_sample_usec v d := MkDecoder (samplerate d) v (skip_per_bit d) (samplenum d) (run_start d) (run_bit d) (state d) (bit_break d) (channel d) (bit d) (aggreg d) (byte d) (next_sample d).
Definition set_skip_per_bit v d := MkDecoder (samplerate d) (sample_usec d) v (samplenum d) (run_start d) (run_bit d) (state d) (bit_break d) (channel d) (bit d) (aggreg d) (byte d) (next_sample d).
Definition set_samplenum v d := MkDecoder (samplerate d) (sample_usec d) (skip_per_bit d) v (run_start d) (run_bit d) (state d) (bit_break d) (channel d) (bit d) (aggreg d) (byte d) (next_sample d).
Definition set_run_start v d := MkDecoder (samplerate d) (sample_usec d) (skip_per_bit d) (samplenum d) v (run_bit d) (state d) (bit_break d) (channel d) (bit d) (aggreg d) (byte d) (next_sample d).
Definition set_run_bit v d := MkDecoder (samplerate d) (sample_usec d) (skip_per_bit d) (samplenum d) (run_start d) v (state d) (bit_break d) (channel d) (bit d) (aggreg d) (byte d) (next_sample d).
Definition set_state v d := MkDecoder (samplerate d) (sample_usec d) (skip_per_bit d) (samplenum d) (run_start d) (run_bit d) v (bit_break d) (channel d) (bit d) (aggreg d) (byte d) (next_sample d).
Definition set_bit_break v d := MkDecoder (samplerate d) (sample_usec d) (skip_per_bit d) (samplenum d) (run_start d) (run_bit d) (state d) v (channel d) (bit d) (aggreg d) (byte d) (next_sample d).
Definition set_channel v d := MkDecoder (samplerate d) (sample_usec d) (skip_per_bit d) (samplenum d) (run_start d) (run_bit d) (state d) (bit_break d) v (bit d) (aggreg d) (byte d) (next_sample d).
Definition set_bit v d := MkDecoder (samplerate d) (sample_usec d) (skip_per_bit d) (samplenum d) (run_start d) (run_bit d) (state d) (bit_break d) (channel d) v (aggreg d) (byte d) (next_sample d).
Definition set_aggreg v d := MkDecoder (samplerate d) (sample_usec d) (skip_per_bit d) (samplenum d) (run_start d) (run_bit d) (state d) (bit_break d) (channel d) (bit d) v (byte d) (next_sample d).
Definition set_byte v d := MkDecoder (samplerate d) (sample_usec d) (skip_per_bit d) (samplenum d) (run_start d) (run_bit d) (state d) (bit_break d) (channel d) (bit d) (aggreg d) v (next_sample d).
Definition set_next_sample v d := MkDecoder (samplerate d) (sample_usec d) (skip_per_bit d) (samplenum d) (run_start d) (run_bit d) (state d) (bit_break d) (channel d) (bit d) (aggreg d) (byte d) v.

(** [__init__]. *)
Definition init : Decoder := {|
  samplerate := None;
  sample_usec := None;
  skip_per_bit := None;
  samplenum := -1;
  run_start := -1;
  run_bit := 0;
  state := FIND_BREAK;
  bit_break := 0;
  channel := 0;
  bit := 0;
  aggreg := 0;
  byte := 0;
  next_sample := 0
|}.

(** Indices into the [annotations] tuple of the class. *)
Definition ann_bit : Z := 0.
Definition ann_break : Z := 1.
Definition ann_mab : Z := 2.
Definition ann_startbit : Z := 3.
Definition ann_stopbits : Z := 4.
Definition ann_startcode : Z := 5.
Definition ann_channel : Z := 6.
Definition ann_interframe : Z := 7.
Definition ann_interpacket : Z := 8.
Definition ann_data : Z := 9.
Definition ann_error : Z := 10.

(** [srd.SRD_CONF_SAMPLERATE], the key libsigrokdecode passes with the
    sample rate. *)
Definition SRD_CONF_SAMPLERATE : Z := 10000.

(** [metadata(self, key, value)]. *)
Definition metadata (key value : Z) : Py unit :=
  if key =? SRD_CONF_SAMPLERATE then
    modify (set_samplerate (Some value)) ;;;
    q <- lift (PyFloat.int_truediv 1 value) ;;
    u <- lift (PyFloat.mul_int q 1000000) ;;
    modify (set_sample_usec (Some u)) ;;;
    r <- lift (PyFloat.int_div 4 u) ;;
    k <- lift (PyFloat.to_int r) ;;
    modify (set_skip_per_bit (Some k))
  else ret tt.

(** The [FIND_BREAK] branch of the loop body. *)
Definition find_break (sn pin : Z) : Py unit :=
  rb <- gets run_bit ;;
  when (negb (rb =? pin)) (
    rs <- gets run_start ;;
    usec <- attr sample_usec TypeError ;;
    runlen <- lift (PyFloat.int_mul (sn - rs) usec) ;;
    when (PyFloat.gt_int runlen 88 && PyFloat.lt_int runlen 180) (
      emit (Ann rs sn ann_break ["Break"%string]) ;;;
      modify (set_bit_break rb) ;;;
      modify (set_state MARK_MAB) ;;;
      modify (set_channel 0)) ;;;
    modify (set_run_bit pin) ;;;
    modify (set_run_start sn)).

(** The [MARK_MAB] branch. *)
Definition mark_mab (sn pin : Z) : Py unit :=
  rb <- gets run_bit ;;
  when (negb (rb =? pin)) (
    rs <- gets run_start ;;
    emit (Ann rs sn ann_mab ["MAB"%string]) ;;;
    modify (set_state READ_BYTE) ;;;
    modify (set_channel 0) ;;;
    modify (set_bit 0) ;;;
    modify (set_aggreg pin) ;;;
    modify (set_run_start sn)).

(** The three-way test on [self.bit] once a bit window is complete. *)
Definition label_bit (sn pin skip bit_value : Z) : Py unit :=
  b <- gets bit ;;
  if b =? 0 then
    modify (set_byte 0) ;;;
    rs <- gets run_start ;;
    emit (Ann rs sn ann_startbit ["Start bit"%string]) ;;;
    when (negb (bit_value =? 0)) (
      emit (Ann sn sn ann_error ["Invalid start bit"%string]) ;;;
      modify (set_run_bit pin) ;;;
      modify (set_state FIND_BREAK))
  else if 9 <=? b then
    emit (Ann (sn - skip) sn ann_stopbits ["Stop bit"%string]) ;;;
    when (negb (bit_value =? 1)) (
      emit (Ann sn sn ann_error ["Invalid stop bit"%string]) ;;;
      modify (set_run_bit pin) ;;;
      modify (set_state FIND_BREAK))
  else
    emit (Ann (sn - skip) sn ann_bit [PyStr.str bit_value]) ;;;
    by_ <- gets byte ;;
    sh <- lift (py_shl bit_value (b - 1)) ;;
    modify (set_byte (Z.lor by_ sh)).

(** [if self.bit == 10:], labelling a complete byte. *)
Definition label_byte (sn pin skip : Z) : Py unit :=
  b <- gets bit ;;
  when (b =? 10) (
    ch <- gets channel ;;
    rs <- gets run_start ;;
    ns <- gets next_sample ;;
    (if ch =? 0 then emit (Ann rs ns ann_startcode ["Start code"%string])
     else emit (Ann rs ns ann_channel [("Channel " ++ PyStr.str ch)%string])) ;;;
    by_ <- gets byte ;;
    emit (Ann (rs + skip) (ns - 2 * skip) ann_data
            [(PyStr.str by_ ++ " / " ++ PyStr.hex by_)%string]) ;;;
    modify (set_channel (ch + 1)) ;;;
    modify (set_run_start sn) ;;;
    modify (set_run_bit pin) ;;;
    modify (set_state MARK_IFT)).

(** The [READ_BYTE] branch. *)
Definition read_byte (sn pin : Z) : Py unit :=
  rs <- gets run_start ;;
  b <- gets bit ;;
  skip <- attr skip_per_bit AttributeError ;;
  modify (set_next_sample (rs + (b + 1) * skip)) ;;;
  ag <- gets aggreg ;;
  modify (set_aggreg (ag + pin)) ;;;
  ns <- gets next_sample ;;
  when (sn =? ns) (
    ag' <- gets aggreg ;;
    q <- lift (PyFloat.int_truediv ag' skip) ;;
    r <- lift (PyFloat.round q) ;;
    bb <- gets bit_break ;;
    let bit_value := if r =? bb then 0 else 1 in
    modify (set_aggreg pin) ;;;
    label_bit sn pin skip bit_value ;;;
    label_byte sn pin skip ;;;
    b' <- gets bit ;;
    modify (set_bit (b' + 1))).

(** The [MARK_IFT] branch. *)
Definition mark_ift (sn pin : Z) : Py unit :=
  rb <- gets run_bit ;;
  when (negb (rb =? pin)) (
    ch <- gets channel ;;
    rs <- gets run_start ;;
    if 512 <? ch then
      emit (Ann rs sn ann_interpacket ["Interpacket"%string]) ;;;
      modify (set_state FIND_BREAK) ;;;
      modify (set_run_bit pin) ;;;
      modify (set_run_start sn)
    else
      emit (Ann rs sn ann_interframe ["Interframe"%string]) ;;;
      modify (set_state READ_BYTE) ;;;
      modify (set_bit 0) ;;;
      modify (set_run_start sn)).

(** One iteration of [for (self.samplenum, pins) in data:], on the sample
    number and [pins[0]]. *)
Definition decode_sample (ev : Z * Z) : Py unit :=
  let '(sn, pin) := ev in
  modify (set_samplenum sn) ;;;
  st <- gets state ;;
  match st with
  | FIND_BREAK => find_break sn pin
  | MARK_MAB => mark_mab sn pin
  | READ_BYTE => read_byte sn pin
  | MARK_IFT => mark_ift sn pin
  end.

(** [decode(self, ss, es, data)]. *)
Definition decode (ss es : Z) (data : list (Z * Z)) : Py unit :=
  sr <- gets samplerate ;;
  match sr with
  | None => raise (Exception "Cannot decode without samplerate.")
  | Some _ => for_each decode_sample data
  end.

(** A logic trace as the host delivers it: consecutive sample numbers from
    [start], each run given as its level and its length in samples. *)
Fixpoint hold (start : Z) (level : Z) (n : nat) : list (Z * Z) :=
  match n with
  | O => []
  | S n' => (start, level) :: hold (start + 1) level n'
  end.

Fixpoint trace (start : Z) (runs : list (Z * nat)) : list (Z * Z) :=
  match runs with
  | [] => []
  | (level, n) :: rest => hold start level n ++ trace (start + Z.of_nat n) rest
  end.

End Dmx512.

(** * decoders/spiflash/pd.py *)

Module SpiFlash.

(** [decode_dual_bytes(sio0, sio1)] with its local [combine_byte]. *)
Definition combine_byte (even odd : Z) : Z :=
  fold_left
    (fun result bit =>
       let result :=
         if negb (Z.land even (Z.shiftl 1 bit) =? 0)
         then Z.lor result (Z.shiftl 1 (bit * 2)) else result in
       if negb (Z.land odd (Z.shiftl 1 bit) =? 0)
       then Z.lor result (Z.shiftl 1 (bit * 2 + 1)) else result)
    [0; 1; 2; 3] 0.

Definition decode_dual_bytes (sio0 sio1 : Z) : Z * Z :=
  (combine_byte (Z.shiftr sio0 4) (Z.shiftr sio1 4), combine_byte sio0 sio1).

Definition nl : string := String (Ascii.ascii_of_nat 10) "".

(** [decode_status_reg(data)]. *)
Definition decode_status_reg (data : Z) : string :=
  let flag (n : Z) := negb (Z.land data (Z.shiftl 1 n) =? 0) in
  let ret := ((if flag 0 then "W" else "No w") ++
              "rite operation in progress." ++ nl)%string in
  let ret := (ret ++ "Internal write enable latch is " ++
              (if flag 1 then "" else "not ") ++ "set." ++ nl)%string in
  let ret := (ret ++ "Block protection bits (BP3-BP0): 0x" ++
              PyStr.hex_pad 0 (Z.shiftr (Z.land data 60) 2) ++ "." ++ nl)%string in
  let ret := (ret ++ "Device is " ++ (if flag 6 then "" else "not ") ++
              "in continuously program mode (CP mode)." ++ nl)%string in
  (ret ++ "Status register writes are " ++ (if flag 7 then "not " else "") ++
   "allowed." ++ nl)%string.

(** The [handle_<shortname>] methods of the class.  A shortname of the
    command table is kept as the method it selects. *)
Inductive Handler :=
| WREN | WRDI | RDID | RDSR | WRSR | READ | FAST_READ | TWO_READ | SE | BE
| CE | CE2 | PP | CP | DP | RDP_RES | REMS | REMS2 | ENSO | EXSO | RDSCUR
| WRSCUR | ESRY | DSRY.

(** The closures stored in [self.on_end_transaction]:
    [lambda: self.output_data_block(label)]. *)
Inductive Callback := OutputDataBlock (label : string).

(** [self.options['format']]. *)
Inductive Format := Hex | Ascii.

(** The attributes of the decoder object.  [ss], [es], [ss_block],
    [es_block], [device_id], [ids] and [manufacturer_id_first] are created
    by their first assignment, which precedes their first read. *)
Record Decoder := MkDecoder {
  on_end_transaction : option Callback;
  state : option Z;
  cmdstate : Z;
  addr : Z;
  data : list Z;
  ss : Z;
  es : Z;
  ss_block : Z;
  es_block : Z;
  device_id : Z;
  ids : list Z;
  manufacturer_id_first : bool;
  format : Format
}.

Definition set_on_end_transaction v d := MkDecoder v (state d) (cmdstate d) (addr d) (data d) (ss d) (es d) (ss_block d) (es_block d) (device_id d) (ids d) (manufacturer_id_first d) (format d).
Definition set_state v d := MkDecoder (on_end_transaction d) v (cmdstate d) (addr d) (data d) (ss d) (es d) (ss_block d) (es_block d) (device_id d) (ids d) (manufacturer_id_first d) (format d).
Definition set_cmdstate v d := MkDecoder (on_end_transaction d) (state d) v (addr d) (data d) (ss d) (es d) (ss_block d) (es_block d) (device_id d) (ids d) (manufacturer_id_first d) (format d).
Definition set_addr v d := MkDecoder (on_end_transaction d) (state d) (cmdstate d) v (data d) (ss d) (es d) (ss_block d) (es_block d) (device_id d) (ids d) (manufacturer_id_first d) (format d).
Definition set_data v d := MkDecoder (on_end_transaction d) (state d) (cmdstate d) (addr d) v (ss d) (es d) (ss_block d) (es_block d) (device_id d) (ids d) (manufacturer_id_first d) (format d).
Definition set_ss v d := MkDecoder (on_end_transaction d) (state d) (cmdstate d) (addr d) (data d) v (es d) (ss_block d) (es_block d) (device_id d) (ids d) (manufacturer_id_first d) (format d).
Definition set_es v d := MkDecoder (on_end_transaction d) (state d) (cmdstate d) (addr d) (data d) (ss d) v (ss_block d) (es_block d) (device_id d) (ids d) (manufacturer_id_first d) (format d).
Definition set_ss_block v d := MkDecoder (on_end_transaction d) (state d) (cmdstate d) (addr d) (data d) (ss d) (es d) v (es_block d) (device_id d) (ids d) (manufacturer_id_first d) (format d).
Definition set_es_block v d := MkDecoder (on_end_transaction d) (state d) (cmdstate d) (addr d) (data d) (ss d) (es d) (ss_block d) v (device_id d) (ids d) (manufacturer_id_first d) (format d).
Definition set_device_id v d := MkDecoder (on_end_transaction d) (state d) (cmdstate d) (addr d) (data d) (ss d) (es d) (ss_block d) (es_block d) v (ids d) (manufacturer_id_first d) (format d).
Definition set_ids v d := MkDecoder (on_end_transaction d) (state d) (cmdstate d) (addr d) (data d) (ss d) (es d) (ss_block d) (es_block d) (device_id d) v (manufacturer_id_first d) (format d).
Definition set_manufacturer_id_first v d := MkDecoder (on_end_transaction d) (state d) (cmdstate d) (addr d) (data d) (ss d) (es d) (ss_block d) (es_block d) (device_id d) (ids d) v (format d).

(** Annotation classes named by [annotations] and [annotation_rows]: the
    command classes are 0..23, then come [bits], [bits2] and [warnings]. *)
Definition ann_bits : Z := 24.
Definition ann_bits2 : Z := 25.
Definition ann_warnings : Z := 26.

(** [chr(b)], as the UTF-8 bytes of the code point.  An argument that does
    not fit a C [int] raises [OverflowError], any other one outside the
    Unicode range raises [ValueError]. *)
Definition byte_chr (n : Z) : string :=
  String (Ascii.ascii_of_N (Z.to_N n)) "".

Definition chr (b : Z) : PyError + string :=
  if (b <? -2147483648) || (2147483647 <? b) then inl OverflowError
  else if (b <? 0) || (1114111 <? b) then inl ValueError
  else if b <? 128 then inr (byte_chr b)
  else if b <? 2048 then
    inr (byte_chr (192 + Z.shiftr b 6) ++ byte_chr (128 + Z.land b 63))%string
  else if b <? 65536 then
    inr (byte_chr (224 + Z.shiftr b 12) ++
         byte_chr (128 + Z.land (Z.shiftr b 6) 63) ++
         byte_chr (128 + Z.land b 63))%string
  else
    inr (byte_chr (240 + Z.shiftr b 18) ++
         byte_chr (128 + Z.land (Z.shiftr b 12) 63) ++
         byte_chr (128 + Z.land (Z.shiftr b 6) 63) ++
         byte_chr (128 + Z.land b 63))%string.

(** [map(chr, l)], raising at the first element [chr] rejects. *)
Fixpoint map_chr (l : list Z) : PyError + list string :=
  match l with
  | [] => inr []
  | b :: rest =>
      match chr b with
      | inl e => inl e
      | inr c =>
          match map_chr rest with
          | inl e => inl e
          | inr cs => inr (c :: cs)
          end
      end
  end.

Section Tables.
(** [cmds] and [device_name] of [lists.py], which the decoder imports:
    opcode to (shortname, long name), and device id to device name. *)
Variable cmds : gmap Z (Handler * string).
Variable device_name : gmap Z string.

(** [self.put(self.ss, self.es, self.out_ann, data)]. *)
Definition putx (cls : Z) (text : string) : Py unit :=
  s <- gets ss ;;
  e <- gets es ;;
  emit (Ann s e cls [text]).

(** [self.put(self.ss_block, self.es_block, self.out_ann, data)]. *)
Definition putb (cls : Z) (text : string) : Py unit :=
  s <- gets ss_block ;;
  e <- gets es_block ;;
  emit (Ann s e cls [text]).

(** [self.put(self.ss_block, self.es, self.out_ann, data)]. *)
Definition put_block (cls : Z) (text : string) : Py unit :=
  s <- gets ss_block ;;
  e <- gets es ;;
  emit (Ann s e cls [text]).

(** [cmds[self.state][1]]. *)
Definition cmd_longname : Py string :=
  st <- gets state ;;
  match st with
  | None => raise KeyError
  | Some op =>
      match cmds !! op with
      | None => raise KeyError
      | Some (_, longname) => ret longname
      end
  end.

(** [device_name[id]]. *)
Definition lookup_device_name (id : Z) : @Py Decoder string :=
  match device_name !! id with
  | None => raise KeyError
  | Some n => ret n
  end.

(** [output_data_block(self, label)]. *)
Definition output_data_block (label : string) : Py unit :=
  e <- gets es ;;
  modify (set_es_block e) ;;;
  fmt <- gets format ;;
  dat <- gets data ;;
  s <- (match fmt with
        | Hex => ret (PyStr.join " " (map (PyStr.hex_pad 2) dat))
        | Ascii => cs <- lift (map_chr dat) ;; ret (PyStr.join "" cs)
        end) ;;
  dat' <- gets data ;;
  putb ann_bits2
    (label ++ " " ++ PyStr.str (Z.of_nat (length dat')) ++ " bytes: " ++ s)%string.

Definition call (cb : Callback) : Py unit :=
  match cb with
  | OutputDataBlock label => output_data_block label
  end.

(** [end_current_transaction(self)]. *)
Definition end_current_transaction : Py unit :=
  cb <- gets on_end_transaction ;;
  (match cb with
   | Some f => call f ;;; modify (set_on_end_transaction None)
   | None => ret tt
   end) ;;;
  modify (set_state None) ;;;
  modify (set_cmdstate 1) ;;;
  modify (set_addr 0) ;;;
  modify (set_data []).

(** [__init__]. *)
Definition init (fmt : Format) : Decoder := {|
  on_end_transaction := None;
  state := None;
  cmdstate := 1;
  addr := 0;
  data := [];
  ss := 0;
  es := 0;
  ss_block := 0;
  es_block := 0;
  device_id := 0;
  ids := [];
  manufacturer_id_first := false;
  format := fmt
|}.

(** [self.addr |= (mosi << ((4 - self.cmdstate) * 8))]. *)
Definition accumulate_addr (mosi : Z) : Py unit :=
  a <- gets addr ;;
  cs <- gets cmdstate ;;
  sh <- lift (py_shl mosi ((4 - cs) * 8)) ;;
  modify (set_addr (Z.lor a sh)).

(** [self.cmdstate += 1]. *)
Definition next_cmdstate : Py unit :=
  cs <- gets cmdstate ;;
  modify (set_cmdstate (cs + 1)).

Definition in_2_3_4 (cs : Z) : bool := (cs =? 2) || (cs =? 3) || (cs =? 4).

Definition handle_wren (mosi miso : Z) : Py unit :=
  n <- cmd_longname ;;
  putx 0 ("Command: " ++ n)%string ;;;
  modify (set_state None).

(** [pass # TODO], the body of every handler not yet written. *)
Definition handle_todo (mosi miso : Z) : @Py Decoder unit := ret tt.

Definition handle_wrdi := handle_todo.

Definition handle_rdid (mosi miso : Z) : Py unit :=
  cs <- gets cmdstate ;;
  (if cs =? 1 then
     s <- gets ss ;;
     modify (set_ss_block s) ;;;
     n <- cmd_longname ;;
     putx 2 ("Command: " ++ n)%string
   else if cs =? 2 then
     putx 2 ("Manufacturer ID: 0x" ++ PyStr.hex_pad 2 miso)%string
   else if cs =? 3 then
     putx 2 ("Memory type: 0x" ++ PyStr.hex_pad 2 miso)%string
   else if cs =? 4 then
     modify (set_device_id miso) ;;;
     putx 2 ("Device ID: 0x" ++ PyStr.hex_pad 2 miso)%string
   else ret tt) ;;;
  cs' <- gets cmdstate ;;
  if cs' =? 4 then
    id <- gets device_id ;;
    n <- lookup_device_name id ;;
    put_block 0 ("Device: Macronix " ++ n)%string ;;;
    modify (set_state None)
  else next_cmdstate.

Definition handle_rdsr (mosi miso : Z) : Py unit :=
  cs <- gets cmdstate ;;
  (if cs =? 1 then
     n <- cmd_longname ;;
     putx 3 ("Command: " ++ n)%string
   else if 2 <=? cs then
     putx ann_bits ("Status register: 0x" ++ PyStr.hex_pad 2 miso)%string ;;;
     putx ann_bits2 (decode_status_reg miso)
   else ret tt) ;;;
  next_cmdstate.

Definition handle_wrsr := handle_todo.

Definition handle_read (mosi miso : Z) : Py unit :=
  cs <- gets cmdstate ;;
  (if cs =? 1 then
     n <- cmd_longname ;;
     putx 5 ("Command: " ++ n)%string
   else if in_2_3_4 cs then
     accumulate_addr mosi ;;;
     cs' <- gets cmdstate ;;
     when (cs' =? 4) (
       a <- gets addr ;;
       putx ann_bits ("Read address: 0x" ++ PyStr.hex_pad 6 a)%string ;;;
       modify (set_addr 0))
   else if 5 <=? cs then
     when (cs =? 5) (
       s <- gets ss ;;
       modify (set_ss_block s) ;;;
       modify (set_on_end_transaction (Some (OutputDataBlock "Read")))) ;;;
     dat <- gets data ;;
     modify (set_data (dat ++ [miso]))
   else ret tt) ;;;
  next_cmdstate.

Definition handle_fast_read (mosi miso : Z) : Py unit :=
  cs <- gets cmdstate ;;
  (if cs =? 1 then
     n <- cmd_longname ;;
     putx 5 ("Command: " ++ n)%string
   else if in_2_3_4 cs then
     putx ann_bits ("AD" ++ PyStr.str (cs - 1) ++ ": 0x" ++ PyStr.hex_pad 2 mosi)%string ;;;
     when (cs =? 2) (
       s <- gets ss ;;
       modify (set_ss_block s)) ;;;
     accumulate_addr mosi
   else if cs =? 5 then
     putx ann_bits ("Dummy byte: 0x" ++ PyStr.hex_pad 2 mosi)%string ;;;
     e <- gets es ;;
     modify (set_es_block e) ;;;
     a <- gets addr ;;
     putb 5 ("Read address: 0x" ++ PyStr.hex_pad 6 a)%string ;;;
     modify (set_addr 0)
   else if 6 <=? cs then
     when (cs =? 6) (
       s <- gets ss ;;
       modify (set_ss_block s) ;;;
       modify (set_on_end_transaction (Some (OutputDataBlock "Read")))) ;;;
     dat <- gets data ;;
     modify (set_data (dat ++ [miso]))
   else ret tt) ;;;
  next_cmdstate.

Definition handle_2read (mosi miso : Z) : Py unit :=
  cs <- gets cmdstate ;;
  if cs =? 1 then
    n <- cmd_longname ;;
    putx 5 ("Command: " ++ n)%string ;;;
    modify (set_cmdstate 2)
  else
    let '(a, b) := decode_dual_bytes mosi miso in
    handle_fast_read a a ;;;
    handle_fast_read b b.

Definition handle_se (mosi miso : Z) : Py unit :=
  cs <- gets cmdstate ;;
  (if cs =? 1 then
     modify (set_addr 0) ;;;
     s <- gets ss ;;
     modify (set_ss_block s) ;;;
     n <- cmd_longname ;;
     putx 8 ("Command: " ++ n)%string
   else if in_2_3_4 cs then
     accumulate_addr mosi
   else ret tt) ;;;
  cs' <- gets cmdstate ;;
  if cs' =? 4 then
    a <- gets addr ;;
    put_block ann_bits
      ("Erase sector " ++ PyStr.str a ++ " (0x" ++ PyStr.hex_pad 6 a ++ ")")%string ;;;
    when (negb (a mod 4096 =? 0)) (
      put_block 101 "Warning: Invalid sector address!") ;;;
    modify (set_state None)
  else next_cmdstate.

Definition handle_be := handle_todo.
Definition handle_ce := handle_todo.
Definition handle_ce2 := handle_todo.

Definition handle_pp (mosi miso : Z) : Py unit :=
  cs <- gets cmdstate ;;
  (if cs =? 1 then
     n <- cmd_longname ;;
     putx 12 ("Command: " ++ n)%string
   else if in_2_3_4 cs then
     accumulate_addr mosi ;;;
     cs' <- gets cmdstate ;;
     when (cs' =? 4) (
       a <- gets addr ;;
       putx ann_bits ("Page address: 0x" ++ PyStr.hex_pad 6 a)%string ;;;
       modify (set_addr 0))
   else if 5 <=? cs then
     when (cs =? 5) (
       s <- gets ss ;;
       modify (set_ss_block s) ;;;
       modify (set_on_end_transaction (Some (OutputDataBlock "Page data")))) ;;;
     dat <- gets data ;;
     modify (set_data (dat ++ [mosi]))
   else ret tt) ;;;
  next_cmdstate.

Definition handle_cp := handle_todo.
Definition handle_dp := handle_todo.
Definition handle_rdp_res := handle_todo.

(** [self.ids[i]]. *)
Definition ids_at (i : nat) : Py Z :=
  l <- gets ids ;;
  match l !! i with
  | Some x => ret x
  | None => raise (Exception "IndexError")
  end.

Definition handle_rems (mosi miso : Z) : Py unit :=
  cs <- gets cmdstate ;;
  (if cs =? 1 then
     s <- gets ss ;;
     modify (set_ss_block s) ;;;
     n <- cmd_longname ;;
     putx 16 ("Command: " ++ n)%string
   else if (cs =? 2) || (cs =? 3) then
     putx ann_bits ("Dummy byte: " ++ PyStr.str mosi)%string
   else if cs =? 4 then
     modify (set_manufacturer_id_first (mosi =? 0)) ;;;
     putx ann_bits ("Master wants " ++
                    (if (mosi =? 0)%Z then "manufacturer" else "device") ++
                    " ID first")%string
   else if cs =? 5 then
     modify (set_ids [miso]) ;;;
     mf <- gets manufacturer_id_first ;;
     putx ann_bits ((if mf then "Manufacturer" else "Device") ++ " ID")%string
   else if cs =? 6 then
     l <- gets ids ;;
     modify (set_ids (l ++ [miso])) ;;;
     mf <- gets manufacturer_id_first ;;
     putx ann_bits ((if mf then "Manufacturer" else "Device") ++ " ID")%string
   else ret tt) ;;;
  cs' <- gets cmdstate ;;
  if cs' =? 6 then
    mf <- gets manufacturer_id_first ;;
    id <- (if mf then ids_at 1 else ids_at 0) ;;
    n <- lookup_device_name id ;;
    putx ann_bits ("Device: Macronix " ++ n)%string ;;;
    modify (set_state None)
  else next_cmdstate.

Definition handle_rems2 := handle_todo.
Definition handle_enso := handle_todo.
Definition handle_exso := handle_todo.
Definition handle_rdscur := handle_todo.
Definition handle_wrscur := handle_todo.
Definition handle_esry := handle_todo.
Definition handle_dsry := handle_todo.

(** [getattr(self, 'handle_' + shortname)]. *)
Definition get_handler (h : Handler) : Z -> Z -> Py unit :=
  match h with
  | WREN => handle_wren
  | WRDI => handle_wrdi
  | RDID => handle_rdid
  | RDSR => handle_rdsr
  | WRSR => handle_wrsr
  | READ => handle_read
  | FAST_READ => handle_fast_read
  | TWO_READ => handle_2read
  | SE => handle_se
  | BE => handle_be
  | CE => handle_ce
  | CE2 => handle_ce2
  | PP => handle_pp
  | CP => handle_cp
  | DP => handle_dp
  | RDP_RES => handle_rdp_res
  | REMS => handle_rems
  | REMS2 => handle_rems2
  | ENSO => handle_enso
  | EXSO => handle_exso
  | RDSCUR => handle_rdscur
  | WRSCUR => handle_wrscur
  | ESRY => handle_esry
  | DSRY => handle_dsry
  end.

(** [self.cmd_handlers[self.state](mosi, miso)]. *)
Definition dispatch (mosi miso : Z) : Py unit :=
  st <- gets state ;;
  match st with
  | None => raise KeyError
  | Some op =>
      match cmds !! op with
      | None => raise KeyError
      | Some (h, _) => get_handler h mosi miso
      end
  end.

(** [decode(self, ss, es, data)] with [data = (ptype, mosi, miso)]. *)
Definition decode (ss0 es0 : Z) (packet : string * Z * Z) : Py unit :=
  let '(ptype, mosi, miso) := packet in
  modify (set_ss ss0) ;;;
  modify (set_es es0) ;;;
  when (String.eqb ptype "CS-CHANGE") end_current_transaction ;;;
  if negb (String.eqb ptype "DATA") then ret tt
  else
    st <- gets state ;;
    when (match st with None => true | Some _ => false end) (
      modify (set_state (Some mosi)) ;;;
      modify (set_cmdstate 1)) ;;;
    try_except_KeyError
      (dispatch mosi miso)
      (putx ann_bits ("Unknown command: 0x" ++ PyStr.hex_pad 2 mosi)%string ;;;
       modify (set_state None)).

(** The host calls [decode] once per packet of the SPI decoder below. *)
Definition decode_all (packets : list (Z * Z * (string * Z * Z))) : Py unit :=
  for_each (fun p => let '(s, e, packet) := p in decode s e packet) packets.

End Tables.

(** Modelled from the spec: [lists.py] is not among the sources.  A command
    table for the 24 handlers of the class, with the opcodes of the xx25
    series, and a device table with one entry, used to run the decoder on
    concrete sessions. *)
Definition xx25_cmds : gmap Z (Handler * string) :=
  list_to_map [
    (6, (WREN, "Write enable")); (4, (WRDI, "Write disable"));
    (159, (RDID, "Read identification")); (5, (RDSR, "Read status register"));
    (1, (WRSR, "Write status register")); (3, (READ, "Read data"));
    (11, (FAST_READ, "Fast read data")); (187, (TWO_READ, "2x I/O read"));
    (32, (SE, "Sector erase")); (216, (BE, "Block erase"));
    (96, (CE, "Chip erase")); (199, (CE2, "Chip erase"));
    (2, (PP, "Page program")); (173, (CP, "Continuously program mode"));
    (185, (DP, "Deep power down"));
    (171, (RDP_RES, "Release from deep powerdown / Read electronic signature"));
    (144, (REMS, "Read electronic manufacturer & device ID"));
    (239, (REMS2, "Read ID for 2x I/O mode"));
    (177, (ENSO, "Enter secured OTP")); (193, (EXSO, "Exit secured OTP"));
    (43, (RDSCUR, "Read security register"));
    (47, (WRSCUR, "Write security register"));
    (112, (ESRY, "Enable SO to output RY/BY#"));
    (128, (DSRY, "Disable SO to output RY/BY#"))
  ]%string.

Definition xx25_device_name : gmap Z string :=
  list_to_map [(20, "MX25L1605D"%string)].

End SpiFlash.

(** * Bounded exhaustive checks *)

Fixpoint all_from (P : Z -> bool) (lo : Z) (n : nat) : bool :=
  match n with
  | O => true
  | S n' => if P lo then all_from P (lo + 1) n' else false
  end.

Lemma all_from_spec (P : Z -> bool) (n : nat) (lo : Z) :
  all_from P lo n = true ->
  forall z, lo <= z < lo + Z.of_nat n -> P z = true.
Proof.
  revert lo. induction n as [|n IH]; intros lo H z Hz; [lia|].
  cbn [all_from] in H. destruct (P lo) eqn:E; [|discriminate].
  destruct (Z.eq_dec z lo) as [->|Hne]; [assumption|].
  apply (IH (lo + 1) H). lia.
Qed.

(** * Properties of the DMX512 decoder *)

Module Dmx512_Facts.
Import Dmx512.

Ltac run_monad :=
cbv beta iota zeta delta
  [decode_sample find_break mark_mab read_byte mark_ift label_bit label_byte
   bind gets modify emit when ret raise lift attr
   out_state out_anns out_res samplerate sample_usec skip_per_bit samplenum
   run_start run_bit state bit_break channel bit aggreg byte next_sample
   set_samplerate set_sample_usec set_skip_per_bit set_samplenum set_run_start
   set_run_bit set_state set_bit_break set_channel set_bit set_aggreg set_byte
   set_next_sample app negb].

Ltac run_arith :=
cbn [Z.eqb Z.leb Z.ltb Z.compare Pos.eqb Pos.compare Pos.compare_cont
     Z.add Z.sub Z.opp Z.pos_sub Pos.add Pos.succ Pos.pred_double Z.double
     Z.succ_double Z.pred_double].

Ltac run := repeat progress (run_monad; run_arith).

Ltac break_if :=
match goal with
| |- context [match ?x with _ => _ end] =>
    lazymatch x with
    | context [match _ with _ => _ end] => fail
    | _ => destruct x eqn:?
    end
| H : context [match ?x with _ => _ end] |- _ =>
    lazymatch x with
    | context [match _ with _ => _ end] => fail
    | _ => destruct x eqn:?
    end
end.

Ltac open_decoder d := destruct d; cbn in *; subst.

Section Steps.
Variables (d : Decoder) (sn pin : Z).

Lemma mark_ift_step :
state d = MARK_IFT -> run_bit d <> pin ->
decode_sample (sn, pin) d =
  if 512 <? channel d then
    MkOut (set_run_start sn (set_run_bit pin (set_state FIND_BREAK (set_samplenum sn d))))
          [Ann (run_start d) sn ann_interpacket ["Interpacket"%string]] (inr tt)
  else
    MkOut (set_run_start sn (set_bit 0 (set_state READ_BYTE (set_samplenum sn d))))
          [Ann (run_start d) sn ann_interframe ["Interframe"%string]] (inr tt).
Proof.
intros Hs Hp. apply Z.eqb_neq in Hp. open_decoder d.
run. rewrite Hp. run. destruct (512 <? _); reflexivity.
Qed.

Lemma mark_ift_hold :
state d = MARK_IFT -> run_bit d = pin ->
decode_sample (sn, pin) d = MkOut (set_samplenum sn d) [] (inr tt).
Proof.
intros Hs Hp. open_decoder d. run. rewrite Z.eqb_refl. reflexivity.
Qed.

Lemma find_break_step (usec runlen : PyFloat.float) :
state d = FIND_BREAK -> run_bit d <> pin ->
sample_usec d = Some usec ->
PyFloat.int_mul (sn - run_start d) usec = inr runlen ->
decode_sample (sn, pin) d =
  if PyFloat.gt_int runlen 88 && PyFloat.lt_int runlen 180 then
    MkOut (set_run_start sn (set_run_bit pin (set_channel 0 (set_state MARK_MAB
             (set_bit_break (run_bit d) (set_samplenum sn d))))))
          [Ann (run_start d) sn ann_break ["Break"%string]] (inr tt)
  else
    MkOut (set_run_start sn (set_run_bit pin (set_samplenum sn d))) [] (inr tt).
Proof.
intros Hs Hp Hu Hr. apply Z.eqb_neq in Hp. open_decoder d.
run. rewrite Hp. run. rewrite Hr. run.
destruct (_ && _); reflexivity.
Qed.

Lemma find_break_hold :
state d = FIND_BREAK -> run_bit d = pin ->
decode_sample (sn, pin) d = MkOut (set_samplenum sn d) [] (inr tt).
Proof.
intros Hs Hp. open_decoder d. run. rewrite Z.eqb_refl. reflexivity.
Qed.

Lemma mark_mab_step :
state d = MARK_MAB -> run_bit d <> pin ->
decode_sample (sn, pin) d =
  MkOut (set_run_start sn (set_aggreg pin (set_bit 0 (set_channel 0
           (set_state READ_BYTE (set_samplenum sn d))))))
        [Ann (run_start d) sn ann_mab ["MAB"%string]] (inr tt).
Proof.
intros Hs Hp. apply Z.eqb_neq in Hp. open_decoder d.
run. rewrite Hp. reflexivity.
Qed.

Lemma mark_mab_hold :
state d = MARK_MAB -> run_bit d = pin ->
decode_sample (sn, pin) d = MkOut (set_samplenum sn d) [] (inr tt).
Proof.
intros Hs Hp. open_decoder d. run. rewrite Z.eqb_refl. reflexivity.
Qed.

(** Outside a sampling instant [READ_BYTE] only accumulates the level. *)
Lemma read_byte_accumulate (skip : Z) :
state d = READ_BYTE -> skip_per_bit d = Some skip ->
sn <> run_start d + (bit d + 1) * skip ->
decode_sample (sn, pin) d =
  MkOut (set_aggreg (aggreg d + pin)
           (set_next_sample (run_start d + (bit d + 1) * skip) (set_samplenum sn d)))
        [] (inr tt).
Proof.
intros Hs Hk Hn. apply Z.eqb_neq in Hn. open_decoder d.
run. rewrite Hn. reflexivity.
Qed.

(** At a sampling instant the bit value is decided and labelled. *)
Lemma read_byte_sample (skip : Z) (q : PyFloat.float) (r : Z) :
state d = READ_BYTE -> skip_per_bit d = Some skip ->
sn = run_start d + (bit d + 1) * skip ->
PyFloat.int_truediv (aggreg d + pin) skip = inr q ->
PyFloat.round q = inr r ->
decode_sample (sn, pin) d =
  (label_bit sn pin skip (if r =? bit_break d then 0 else 1) ;;;
   label_byte sn pin skip ;;;
   b' <- gets bit ;;
   modify (set_bit (b' + 1)))
    (set_aggreg pin (set_next_sample sn (set_samplenum sn d))).
Proof.
intros Hs Hk Hn Hq Hr. open_decoder d.
run. rewrite Z.eqb_refl. run. rewrite Hq. run. rewrite Hr. run.
repeat (break_if; run); reflexivity.
Qed.

Lemma invalid_start_bit_step (skip : Z) (q : PyFloat.float) (r : Z) :
state d = READ_BYTE -> skip_per_bit d = Some skip ->
sn = run_start d + (bit d + 1) * skip ->
PyFloat.int_truediv (aggreg d + pin) skip = inr q ->
PyFloat.round q = inr r ->
bit d = 0 -> r <> bit_break d ->
decode_sample (sn, pin) d =
  MkOut (set_bit 1 (set_state FIND_BREAK (set_run_bit pin (set_byte 0
           (set_aggreg pin (set_next_sample sn (set_samplenum sn d)))))))
        [Ann (run_start d) sn ann_startbit ["Start bit"%string];
         Ann sn sn ann_error ["Invalid start bit"%string]]
        (inr tt).
Proof.
intros Hs Hk Hn Hq Hr Hb Hv.
rewrite (read_byte_sample skip q r) by assumption.
apply Z.eqb_neq in Hv. rewrite Hv. clear Hq Hr Hv.
open_decoder d. reflexivity.
Qed.

Lemma invalid_stop_bit_9_step (skip : Z) (q : PyFloat.float) :
state d = READ_BYTE -> skip_per_bit d = Some skip ->
sn = run_start d + (bit d + 1) * skip ->
PyFloat.int_truediv (aggreg d + pin) skip = inr q ->
PyFloat.round q = inr (bit_break d) ->
bit d = 9 ->
decode_sample (sn, pin) d =
  MkOut (set_bit 10 (set_state FIND_BREAK (set_run_bit pin
           (set_aggreg pin (set_next_sample sn (set_samplenum sn d))))))
        [Ann (sn - skip) sn ann_stopbits ["Stop bit"%string];
         Ann sn sn ann_error ["Invalid stop bit"%string]]
        (inr tt).
Proof.
intros Hs Hk Hn Hq Hr Hb.
rewrite (read_byte_sample skip q (bit_break d)) by assumption.
rewrite Z.eqb_refl. clear Hq Hr.
open_decoder d. reflexivity.
Qed.

Lemma invalid_stop_bit_10_step (skip : Z) (q : PyFloat.float) :
state d = READ_BYTE -> skip_per_bit d = Some skip ->
sn = run_start d + (bit d + 1) * skip ->
PyFloat.int_truediv (aggreg d + pin) skip = inr q ->
PyFloat.round q = inr (bit_break d) ->
bit d = 10 ->
decode_sample (sn, pin) d =
  MkOut (set_bit 11 (set_state MARK_IFT (set_run_bit pin (set_run_start sn
           (set_channel (channel d + 1) (set_state FIND_BREAK (set_run_bit pin
              (set_aggreg pin (set_next_sample sn (set_samplenum sn d))))))))))
        [Ann (sn - skip) sn ann_stopbits ["Stop bit"%string];
         Ann sn sn ann_error ["Invalid stop bit"%string];
         (if channel d =? 0
          then Ann (run_start d) sn ann_startcode ["Start code"%string]
          else Ann (run_start d) sn ann_channel
                 [("Channel " ++ PyStr.str (channel d))%string]);
         Ann (run_start d + skip) (sn - 2 * skip) ann_data
           [(PyStr.str (byte d) ++ " / " ++ PyStr.hex (byte d))%string]]
        (inr tt).
Proof.
intros Hs Hk Hn Hq Hr Hb.
rewrite (read_byte_sample skip q (bit_break d)) by assumption.
rewrite Z.eqb_refl. clear Hq Hr.
open_decoder d. run. destruct (channel0 =? 0); reflexivity.
Qed.

End Steps.

(** ** Which exceptions the arithmetic can raise *)

Definition is_exception (e : PyError) : bool :=
match e with Exception _ => true | _ => false end.

Lemma of_int_raises z e : PyFloat.of_int z = inl e -> e = OverflowError.
Proof. unfold PyFloat.of_int. destruct (PyFloat.is_finite _); congruence. Qed.

Lemma int_mul_raises z x e : PyFloat.int_mul z x = inl e -> e = OverflowError.
Proof.
unfold PyFloat.int_mul. destruct (PyFloat.of_int z) eqn:E; [|congruence].
intros [= <-]. eauto using of_int_raises.
Qed.

Lemma int_truediv_raises a b e :
PyFloat.int_truediv a b = inl e ->
(e = ZeroDivisionError /\ b = 0) \/ e = OverflowError.
Proof.
unfold PyFloat.int_truediv. destruct (b =? 0) eqn:Eb.
- intros [= <-]. left. split; [reflexivity | lia].
- destruct (a =? 0); [congruence|].
  destruct (_ && _); [congruence|].
  destruct (PyFloat.is_finite _); [congruence|]. intros [= <-]. now right.
Qed.

Lemma round_raises x e :
PyFloat.round x = inl e -> e = OverflowError \/ e = ValueError.
Proof. destruct x; cbn; intros [= <-]; auto. Qed.

Lemma py_shl_raises a n e : py_shl a n = inl e -> e = ValueError.
Proof. unfold py_shl. destruct (n <? 0); congruence. Qed.

(** ** Claims about single steps *)

Definition in_break_window (runlen : PyFloat.float) : bool :=
PyFloat.gt_int runlen 88 && PyFloat.lt_int runlen 180.

Lemma in_break_window_strict (runlen : PyFloat.float) :
in_break_window runlen = true <->
PyFloat.compare_int runlen 88 = Some Gt /\
PyFloat.compare_int runlen 180 = Some Lt.
Proof.
unfold in_break_window, PyFloat.gt_int, PyFloat.lt_int.
rewrite andb_true_iff.
destruct (PyFloat.compare_int runlen 88) as [[]|],
         (PyFloat.compare_int runlen 180) as [[]|];
  split; intros [? ?]; (split; congruence).
Qed.

(** In [FIND_BREAK] a level change is judged on the binary64 product
  [(samplenum - run_start) * sample_usec]: a product strictly above 88 and
  strictly below 180 gives a break, annotated from [run_start], with the
  tracked level as the zero reference, channel 0 and state [MARK_MAB]; any
  other product only restarts the run tracking. *)
Lemma find_break_window_test
  (d : Decoder) (sn pin : Z) (usec runlen : PyFloat.float) :
state d = FIND_BREAK -> run_bit d <> pin ->
sample_usec d = Some usec ->
PyFloat.int_mul (sn - run_start d) usec = inr runlen ->
let o := decode_sample (sn, pin) d in
(in_break_window runlen = true <->
   PyFloat.compare_int runlen 88 = Some Gt /\
   PyFloat.compare_int runlen 180 = Some Lt) /\
(in_break_window runlen = true ->
   o = MkOut (set_run_start sn (set_run_bit pin (set_channel 0 (set_state MARK_MAB
                (set_bit_break (run_bit d) (set_samplenum sn d))))))
             [Ann (run_start d) sn ann_break ["Break"%string]] (inr tt)) /\
(in_break_window runlen = false ->
   o = MkOut (set_run_start sn (set_run_bit pin (set_samplenum sn d))) [] (inr tt)) /\
(state (out_state o) = MARK_MAB <-> in_break_window runlen = true) /\
(PyFloat.compare_int runlen 88 = Some Eq \/
 PyFloat.compare_int runlen 180 = Some Eq ->
   in_break_window runlen = false).
Proof.
intros Hs Hp Hu Hr o.
assert (Ho := find_break_step d sn pin usec runlen Hs Hp Hu Hr).
fold (in_break_window runlen) in Ho. fold o in Ho.
split; [apply in_break_window_strict|].
split; [intros Hw; now rewrite Hw in Ho|].
split; [intros Hw; now rewrite Hw in Ho|].
split.
- rewrite Ho. destruct (in_break_window runlen); cbn.
  + split; intros _; reflexivity.
  + rewrite Hs. split; intros; discriminate.
- intros He. destruct (in_break_window runlen) eqn:Hw; [|reflexivity].
  apply in_break_window_strict in Hw. destruct Hw, He; congruence.
Qed.

(** C7: the channel counter is 0 after a break, grows by one at the sampling
  instant of bit 10 (the byte is complete) and at no other [READ_BYTE]
  step; in [MARK_IFT] a level change is an interpacket gap leading to
  [FIND_BREAK] exactly when the counter exceeds 512, and otherwise an
  interframe gap leading to [READ_BYTE] with bit index 0. *)
Theorem channel_counter_and_gap (d : Decoder) (sn pin : Z) :
let o := decode_sample (sn, pin) d in
(state d = FIND_BREAK ->
   state (out_state o) = MARK_MAB -> channel (out_state o) = 0) /\
(forall skip, state d = READ_BYTE -> skip_per_bit d = Some skip ->
   out_res o = inr tt ->
   if (sn =? run_start d + (bit d + 1) * skip) && (bit d =? 10)
   then channel (out_state o) = channel d + 1 /\ state (out_state o) = MARK_IFT
   else channel (out_state o) = channel d) /\
(state d = MARK_IFT -> run_bit d <> pin ->
   o = if 512 <? channel d then
         MkOut (set_run_start sn (set_run_bit pin (set_state FIND_BREAK
                  (set_samplenum sn d))))
               [Ann (run_start d) sn ann_interpacket ["Interpacket"%string]] (inr tt)
       else
         MkOut (set_run_start sn (set_bit 0 (set_state READ_BYTE
                  (set_samplenum sn d))))
               [Ann (run_start d) sn ann_interframe ["Interframe"%string]] (inr tt)) /\
(state d = MARK_IFT -> run_bit d = pin ->
   o = MkOut (set_samplenum sn d) [] (inr tt)).
Proof.
intros o. subst o. repeat split.
- intros Hs. open_decoder d. run.
  repeat (break_if; run); cbn; congruence.
- intros skip Hs Hk. open_decoder d. run.
  destruct (sn =? _) eqn:Hn; run.
  + destruct (PyFloat.int_truediv _ _); run; [discriminate|].
    destruct (PyFloat.round _); run; [discriminate|].
    repeat (break_if; run); cbn; try discriminate; try lia; auto.
  + cbn. auto.
- apply mark_ift_step.
- apply mark_ift_hold.
Qed.

(** ** Runs over several samples *)

Definition prepend {A} (a : list Annotation) (o : @Outcome Decoder A) : Outcome A :=
MkOut (out_state o) (a ++ out_anns o) (out_res o).

Lemma for_each_cons_ok (ev : Z * Z) (l : list (Z * Z)) (d d1 : Decoder) a1 :
decode_sample ev d = MkOut d1 a1 (inr tt) ->
for_each decode_sample (ev :: l) d = prepend a1 (for_each decode_sample l d1).
Proof.
intros H. cbn [for_each]. unfold bind at 1. rewrite H.
now destruct (for_each decode_sample l d1).
Qed.

Lemma for_each_cons_raise (ev : Z * Z) (l : list (Z * Z)) (d d1 : Decoder) a1 e :
decode_sample ev d = MkOut d1 a1 (inl e) ->
for_each decode_sample (ev :: l) d = MkOut d1 a1 (inl e).
Proof. intros H. cbn [for_each]. unfold bind at 1. now rewrite H. Qed.

Lemma for_each_app_ok (l1 l2 : list (Z * Z)) (d d1 : Decoder) a1 :
for_each decode_sample l1 d = MkOut d1 a1 (inr tt) ->
for_each decode_sample (l1 ++ l2) d = prepend a1 (for_each decode_sample l2 d1).
Proof.
revert d a1. induction l1 as [|ev l1 IH]; intros d a1 H.
- cbn in H. injection H as <- <-. cbn [app]. unfold prepend.
  now destruct (for_each decode_sample l2 d).
- change ((ev :: l1) ++ l2) with (ev :: (l1 ++ l2)).
  destruct (decode_sample ev d) as [s a [e|[]]] eqn:E.
  + rewrite (for_each_cons_raise _ _ _ _ _ _ E) in H. discriminate.
  + rewrite (for_each_cons_ok _ _ _ _ _ E) in H.
    rewrite (for_each_cons_ok _ _ _ _ _ E).
    destruct (for_each decode_sample l1 s) as [s' a' r'] eqn:E'.
    unfold prepend in H. cbn in H. injection H as -> <- ->.
    rewrite (IH _ _ E'). unfold prepend. cbn. now rewrite app_assoc.
Qed.

Lemma decode_configured (ss es v : Z) (data : list (Z * Z)) (d : Decoder) :
samplerate d = Some v ->
decode ss es data d = for_each decode_sample data d.
Proof.
intros H. unfold decode, bind, gets. rewrite H.
now destruct (for_each decode_sample data d).
Qed.

(** While the level holds, [FIND_BREAK] only follows the sample number. *)
Lemma find_break_idle (l : list (Z * Z)) (d : Decoder) :
state d = FIND_BREAK ->
Forall (fun ev => snd ev = run_bit d) l ->
exists sn', for_each decode_sample l d = MkOut (set_samplenum sn' d) [] (inr tt).
Proof.
revert d. induction l as [|[sn pin] l IH]; intros d Hs Hl.
- exists (samplenum d). now destruct d.
- inversion Hl as [|? ? Hp Hl']; subst. cbn in Hp.
  rewrite (for_each_cons_ok _ _ _ _ _ (find_break_hold d sn pin Hs (eq_sym Hp))).
  destruct (IH (set_samplenum sn d)) as [sn' E]; [now destruct d | now destruct d|].
  rewrite E. exists sn'. now destruct d.
Qed.

(** A run that starts at a level change seen in [FIND_BREAK] and lasts for a
  time inside the window is reported as a break when it ends. *)
Lemma find_break_detects (d : Decoder) (usec stale runlen : PyFloat.float)
  (idle held : list (Z * Z)) (s0 b s1 c : Z) :
state d = FIND_BREAK -> sample_usec d = Some usec ->
Forall (fun ev => snd ev = run_bit d) idle -> b <> run_bit d ->
PyFloat.int_mul (s0 - run_start d) usec = inr stale ->
in_break_window stale = false ->
Forall (fun ev => snd ev = b) held -> c <> b ->
PyFloat.int_mul (s1 - s0) usec = inr runlen ->
in_break_window runlen = true ->
let o := for_each decode_sample (idle ++ (s0, b) :: held ++ [(s1, c)]) d in
out_res o = inr tt /\
out_anns o = [Ann s0 s1 ann_break ["Break"%string]] /\
state (out_state o) = MARK_MAB /\
bit_break (out_state o) = b.
Proof.
intros Hs Hu Hidle Hb Hstale Hw0 Hheld Hc Hrun Hw1 o. subst o.
destruct (find_break_idle idle d Hs Hidle) as [n1 E1].
rewrite (for_each_app_ok _ _ _ _ _ E1).
set (d1 := set_samplenum n1 d).
assert (E2 := find_break_step d1 s0 b usec stale).
unfold in_break_window in Hw0. rewrite Hw0 in E2.
rewrite (for_each_cons_ok _ _ _ _ _
           (E2 ltac:(now destruct d) ltac:(now destruct d) ltac:(now destruct d)
               ltac:(now destruct d))).
set (d2 := set_run_start s0 (set_run_bit b (set_samplenum s0 d1))).
destruct (find_break_idle held d2) as [n3 E3];
  [now destruct d | now destruct d |].
rewrite (for_each_app_ok _ _ _ _ _ E3).
set (d3 := set_samplenum n3 d2).
assert (E4 := find_break_step d3 s1 c usec runlen).
unfold in_break_window in Hw1. rewrite Hw1 in E4.
rewrite (for_each_cons_ok _ _ _ _ _
           (E4 ltac:(now destruct d) ltac:(now destruct d) ltac:(now destruct d)
               ltac:(now destruct d))).
destruct d; cbn. auto.
Qed.

(** ** Claims about the break window and the start and stop bits *)

(** *** Concrete traces; at 1 MHz there is one sample per microsecond and
    there are 4 samples per bit *)

Definition at_1MHz : Decoder :=
out_state (metadata SRD_CONF_SAMPLERATE 1000000 init).

(** Idle high, a 100 us break, a 12 us mark after break: samples 0..121. *)
Definition idle_break_mab : list (Z * nat) :=
[(1, 10%nat); (0, 100%nat); (1, 12%nat)].

(** One low sample after the mark, then high again: samples 0..125. *)
Definition glitch_trace : list (Z * Z) :=
trace 0 (idle_break_mab ++ [(0, 1%nat); (1, 3%nat)]).

Definition before_start_bit : Decoder :=
out_state (decode 0 126 glitch_trace at_1MHz).

(** A start bit, eight data bits at 1 and the first stop bit, all well
  formed: samples 0..161; then a second stop bit held low: 162..165. *)
Definition low_second_stop_trace : list (Z * Z) :=
trace 0 (idle_break_mab ++ [(0, 4%nat); (1, 36%nat); (0, 4%nat)]).

Definition before_second_stop : Decoder :=
out_state (decode 0 166 low_second_stop_trace at_1MHz).

(** A decoder that [metadata] has given the sample rate [v]. *)
Definition at_rate (v : Z) : Decoder :=
out_state (metadata SRD_CONF_SAMPLERATE v init).

(** Idle high for 30 samples, low for [n] samples, then high again: the low
  run starts at the level change of sample 30 and ends at that of sample
  [30 + n]. *)
Definition low_run (n : nat) : list (Z * Z) :=
trace 0 [(1, 30%nat); (0, n); (1, 1%nat)].

(** What a run of the decoder shows: how it ended, its annotations and the
  state it is left in. *)
Definition report {A} (o : @Outcome Decoder A)
  : (PyError + A) * list Annotation * State :=
(out_res o, out_anns o, state (out_state o)).

(** At 2 MHz (8 samples per bit): idle, a 100 us break, a 12 us mark, a
  start bit that is low for one sample only, the line high for 99.5 us
  more, then a second break of 100 us ended at sample 644. *)
Definition glitch_then_break_2MHz : list (Z * Z) :=
trace 0 [(1, 20%nat); (0, 200%nat); (1, 24%nat); (0, 1%nat); (1, 199%nat);
         (0, 200%nat); (1, 1%nat)].

(** C2: the break window is judged on a rounded product, and a run of
  exactly 88 us or exactly 180 us can be classified as a break.  At 3 MHz
  a low run of 264 samples lasts exactly 88 us; at 450 kHz one of 81
  samples lasts exactly 180 us; each starts and ends at a level change
  seen in [FIND_BREAK], and each is annotated as a break and leads to
  [MARK_MAB], because [(samplenum - run_start) * sample_usec] comes out
  above 88, respectively below 180.  At 1 MHz, where [sample_usec] is
  exactly 1, runs of 88 and of 180 samples are no break, and at 3 MHz a
  run of exactly 180 us is none either.  On a fresh decoder the first run
  is measured from sample -1: a line low for the first 88 samples at 1 MHz
  is reported as a break over -1..88. *)
Theorem break_window_bounds_misjudged :
  (264 * 1000000 = 88 * 3000000 /\
   report (decode 0 295 (low_run 264) (at_rate 3000000))
   = (inr tt, [Ann 30 294 ann_break ["Break"%string]], MARK_MAB)) /\
  (81 * 1000000 = 180 * 450000 /\
   report (decode 0 112 (low_run 81) (at_rate 450000))
   = (inr tt, [Ann 30 111 ann_break ["Break"%string]], MARK_MAB)) /\
  (exists usec runlen,
     sample_usec (at_rate 3000000) = Some usec /\
     PyFloat.int_mul (294 - 30) usec = inr runlen /\
     PyFloat.compare_int runlen 88 = Some Gt) /\
  (exists usec runlen,
     sample_usec (at_rate 450000) = Some usec /\
     PyFloat.int_mul (111 - 30) usec = inr runlen /\
     PyFloat.compare_int runlen 180 = Some Lt) /\
  report (decode 0 119 (low_run 88) (at_rate 1000000))
  = (inr tt, [], FIND_BREAK) /\
  report (decode 0 211 (low_run 180) (at_rate 1000000))
  = (inr tt, [], FIND_BREAK) /\
  (540 * 1000000 = 180 * 3000000 /\
   report (decode 0 571 (low_run 540) (at_rate 3000000))
   = (inr tt, [], FIND_BREAK)) /\
  report (decode 0 89 (trace 0 [(0, 88%nat); (1, 1%nat)]) (at_rate 1000000))
  = (inr tt, [Ann (-1) 88 ann_break ["Break"%string]], MARK_MAB).
Proof.
  split; [split; [reflexivity | vm_compute; reflexivity]|].
  split; [split; [reflexivity | vm_compute; reflexivity]|].
  split; [eexists _, _; vm_compute; repeat split; reflexivity|].
  split; [eexists _, _; vm_compute; repeat split; reflexivity|].
  split; [vm_compute; reflexivity|].
  split; [vm_compute; reflexivity|].
  split; [split; [reflexivity | vm_compute; reflexivity]|].
  vm_compute; reflexivity.
Qed.

(** C8: an invalid start bit is reported once and the decoder returns to
  [FIND_BREAK] on the current level, but [run_start] keeps the sample at
  which the byte began, so the next level change is judged on a run that
  started there and a valid break that follows is not reported as one.
  At 1 MHz, after a start-bit window read as 1 at sample 126 (the byte
  began at 122): with the line high up to sample 221, low for 100 us and
  high again, the high stretch 122..222 is annotated as the break, 1
  becomes the zero reference and the true break 222..322 is annotated as
  the mark after break; with the line low from sample 126 for 178 us, the
  run is measured as 182 us and no break is reported.  The first case is
  the same at 2 MHz. *)
Theorem invalid_start_bit_keeps_run_start :
  (let o := decode_sample (126, 1) before_start_bit in
   report o = (inr tt,
               [Ann 122 126 ann_startbit ["Start bit"%string];
                Ann 126 126 ann_error ["Invalid start bit"%string]],
               FIND_BREAK) /\
   run_bit (out_state o) = 1 /\
   run_start (out_state o) = 122 /\
   let o' := decode 127 323
               (trace 127 [(1, 95%nat); (0, 100%nat); (1, 1%nat)])
               (out_state o) in
   report o' = (inr tt,
                [Ann 122 222 ann_break ["Break"%string];
                 Ann 222 322 ann_mab ["MAB"%string]],
                READ_BYTE) /\
   bit_break (out_state o') = 1) /\
  (let o := decode_sample (126, 0) before_start_bit in
   report o = (inr tt,
               [Ann 122 126 ann_startbit ["Start bit"%string];
                Ann 126 126 ann_error ["Invalid start bit"%string]],
               FIND_BREAK) /\
   run_bit (out_state o) = 0 /\
   run_start (out_state o) = 122 /\
   let o' := decode 127 305 (trace 127 [(0, 177%nat); (1, 1%nat)])
               (out_state o) in
   report o' = (inr tt, [], FIND_BREAK) /\
   run_start (out_state o') = 304) /\
  report (decode 0 645 glitch_then_break_2MHz (at_rate 2000000))
  = (inr tt,
     [Ann 20 220 ann_break ["Break"%string];
      Ann 220 244 ann_mab ["MAB"%string];
      Ann 244 252 ann_startbit ["Start bit"%string];
      Ann 252 252 ann_error ["Invalid start bit"%string];
      Ann 244 444 ann_break ["Break"%string];
      Ann 444 644 ann_mab ["MAB"%string]],
     READ_BYTE).
Proof.
  split; [vm_compute; repeat split; reflexivity|].
  split; [vm_compute; repeat split; reflexivity|].
  vm_compute; reflexivity.
Qed.

(** C1: with a well-formed frame up to the first stop bit and the second stop
    bit held low, the sampling instant of bit 10 reports "Invalid stop bit"
    and then still labels the byte and leaves for [MARK_IFT]: the assignment
    of [FIND_BREAK] made for the invalid stop bit is overwritten by the byte
    completion that follows it. *)
Theorem invalid_second_stop_bit_completes_byte :
  state before_second_stop = READ_BYTE /\
  bit before_second_stop = 10 /\
  decode_sample (166, 1) before_second_stop =
    MkOut (set_bit 11 (set_state MARK_IFT (set_run_bit 1 (set_run_start 166
             (set_channel 1 (set_aggreg 1 (set_samplenum 166 before_second_stop)))))))
          [Ann 162 166 ann_stopbits ["Stop bit"%string];
           Ann 166 166 ann_error ["Invalid stop bit"%string];
           Ann 122 166 ann_startcode ["Start code"%string];
           Ann 126 158 ann_data ["255 / 0xff"%string]]
          (inr tt) /\
  state (out_state (decode 0 167 (low_second_stop_trace ++ [(166, 1)]) at_1MHz))
    = MARK_IFT.
Proof. vm_compute. auto. Qed.

(** The first stop bit does resynchronise: an invalid value at bit 9 ends in
    [FIND_BREAK] with no byte label. *)
Lemma invalid_first_stop_bit_resyncs
    (d : Decoder) (sn pin skip : Z) (q : PyFloat.float) :
  state d = READ_BYTE -> skip_per_bit d = Some skip ->
  sn = run_start d + (bit d + 1) * skip ->
  PyFloat.int_truediv (aggreg d + pin) skip = inr q ->
  PyFloat.round q = inr (bit_break d) ->
  bit d = 9 ->
  let o := decode_sample (sn, pin) d in
  out_anns o = [Ann (sn - skip) sn ann_stopbits ["Stop bit"%string];
                Ann sn sn ann_error ["Invalid stop bit"%string]] /\
  state (out_state o) = FIND_BREAK.
Proof.
  intros Hs Hk Hn Hq Hr Hb o. subst o.
  rewrite (invalid_stop_bit_9_step d sn pin skip q) by assumption.
  now destruct d.
Qed.

(** The second stop bit does not, whatever the state: the byte is labelled
    and the decoder goes to [MARK_IFT]. *)
Lemma invalid_second_stop_bit_goes_on
    (d : Decoder) (sn pin skip : Z) (q : PyFloat.float) :
  state d = READ_BYTE -> skip_per_bit d = Some skip ->
  sn = run_start d + (bit d + 1) * skip ->
  PyFloat.int_truediv (aggreg d + pin) skip = inr q ->
  PyFloat.round q = inr (bit_break d) ->
  bit d = 10 ->
  let o := decode_sample (sn, pin) d in
  In (Ann sn sn ann_error ["Invalid stop bit"%string]) (out_anns o) /\
  state (out_state o) = MARK_IFT /\
  channel (out_state o) = channel d + 1.
Proof.
  intros Hs Hk Hn Hq Hr Hb o. subst o.
  rewrite (invalid_stop_bit_10_step d sn pin skip q) by assumption.
  destruct d; cbn. auto.
Qed.

Lemma channel_counter_and_gap_witness :
  let d0 := out_state (decode 0 110 (trace 0 [(1, 10%nat); (0, 100%nat)]) at_1MHz) in
  let d2 := out_state (decode_sample (166, 1) before_second_stop) in
  channel (out_state (decode_sample (110, 1) d0)) = 0 /\
  (channel d2 = channel before_second_stop + 1 /\ state d2 = MARK_IFT) /\
  decode_sample (170, 0) d2 =
    MkOut (set_run_start 170 (set_bit 0 (set_state READ_BYTE (set_samplenum 170 d2))))
          [Ann 166 170 ann_interframe ["Interframe"%string]] (inr tt) /\
  decode_sample (170, 0) (set_channel 513 d2) =
    MkOut (set_run_start 170 (set_run_bit 0 (set_state FIND_BREAK
             (set_samplenum 170 (set_channel 513 d2)))))
          [Ann 166 170 ann_interpacket ["Interpacket"%string]] (inr tt).
Proof.
  intros d0 d2.
  assert (A1 : state d0 = FIND_BREAK) by (vm_compute; reflexivity).
  assert (A2 : state (out_state (decode_sample (110, 1) d0)) = MARK_MAB)
    by (vm_compute; reflexivity).
  assert (B1 : state before_second_stop = READ_BYTE) by (vm_compute; reflexivity).
  assert (B2 : skip_per_bit before_second_stop = Some 4) by (vm_compute; reflexivity).
  assert (B3 : out_res (decode_sample (166, 1) before_second_stop) = inr tt)
    by (vm_compute; reflexivity).
  assert (C1 : state d2 = MARK_IFT) by (vm_compute; reflexivity).
  assert (C2 : run_bit d2 <> 0) by (vm_compute; discriminate).
  assert (C3 : state (set_channel 513 d2) = MARK_IFT) by (vm_compute; reflexivity).
  assert (C4 : run_bit (set_channel 513 d2) <> 0) by (vm_compute; discriminate).
  pose proof (proj1 (channel_counter_and_gap d0 110 1) A1 A2) as H1.
  pose proof (proj1 (proj2 (channel_counter_and_gap before_second_stop 166 1))
                4 B1 B2 B3) as H2.
  pose proof (proj1 (proj2 (proj2 (channel_counter_and_gap d2 170 0))) C1 C2) as H3.
  pose proof (proj1 (proj2 (proj2 (channel_counter_and_gap (set_channel 513 d2) 170 0)))
                C3 C4) as H4.
  split; [exact H1|]. split; [exact H2|]. split; [exact H3 | exact H4].
Defined.

(** ** The sample-rate precondition *)

Lemma decode_sample_raises (ev : Z * Z) (d : Decoder) (e : PyError) :
  out_res (decode_sample ev d) = inl e -> is_exception e = false.
Proof.
  destruct ev as [sn pin]. open_decoder d. run.
  destruct state0; run.
  - destruct (run_bit0 =? pin); run; [discriminate|].
    destruct sample_usec0; run; [|intros [= <-]; reflexivity].
    destruct (PyFloat.int_mul _ _) eqn:E; run.
    + intros [= <-]. apply int_mul_raises in E. now subst.
    + repeat (break_if; run); discriminate.
  - repeat (break_if; run); discriminate.
  - destruct skip_per_bit0; run; [|intros [= <-]; reflexivity].
    destruct (sn =? _); run; [|discriminate].
    destruct (PyFloat.int_truediv _ _) eqn:E; run.
    { intros [= <-]. apply int_truediv_raises in E. destruct E as [[-> _]| ->]; reflexivity. }
    destruct (PyFloat.round _) eqn:E'; run.
    { intros [= <-]. apply round_raises in E'. destruct E' as [-> | ->]; reflexivity. }
    destruct (py_shl _ _) eqn:E''.
    + apply py_shl_raises in E''. subst.
      repeat (break_if; run); try discriminate; intros [= <-]; reflexivity.
    + repeat (break_if; run); discriminate.
  - repeat (break_if; run); discriminate.
Qed.

Lemma for_each_raises (data : list (Z * Z)) (d : Decoder) (e : PyError) :
  out_res (for_each decode_sample data d) = inl e -> is_exception e = false.
Proof.
  revert d. induction data as [|ev data IH]; intros d; [discriminate|].
  destruct (decode_sample ev d) as [d1 a1 [e1|[]]] eqn:E.
  - rewrite (for_each_cons_raise _ _ _ _ _ _ E). cbn. intros [= <-].
    apply (decode_sample_raises ev d). now rewrite E.
  - rewrite (for_each_cons_ok _ _ _ _ _ E). cbn. apply IH.
Qed.

Lemma metadata_sets_samplerate (d : Decoder) (v : Z) :
  samplerate (out_state (metadata SRD_CONF_SAMPLERATE v d)) = Some v.
Proof.
  unfold metadata. rewrite Z.eqb_refl. destruct d. run.
  repeat (break_if; run); reflexivity.
Qed.

(** C9: without a sample rate [decode] raises before it looks at the data,
    leaving the decoder as it was and emitting nothing; once [metadata] has
    stored a sample rate that exception is never raised. *)
Theorem decode_requires_samplerate :
  (forall (d : Decoder) (ss es : Z) (data : list (Z * Z)),
     samplerate d = None ->
     decode ss es data d =
       MkOut d [] (inl (Exception "Cannot decode without samplerate."))) /\
  (forall (d : Decoder) (ss es v : Z) (data : list (Z * Z)) (msg : string),
     samplerate d = Some v ->
     out_res (decode ss es data d) <> inl (Exception msg)) /\
  (forall (d : Decoder) (v : Z),
     samplerate (out_state (metadata SRD_CONF_SAMPLERATE v d)) = Some v).
Proof.
  split; [|split].
  - intros d ss es data H. unfold decode, bind, gets. now rewrite H.
  - intros d ss es v data msg H. rewrite (decode_configured _ _ v) by assumption.
    intros E. apply for_each_raises in E. discriminate.
  - apply metadata_sets_samplerate.
Qed.

Lemma decode_requires_samplerate_witness :
  decode 0 126 glitch_trace init =
    MkOut init [] (inl (Exception "Cannot decode without samplerate.")) /\
  out_res (decode 0 126 glitch_trace at_1MHz)
    <> inl (Exception "Cannot decode without samplerate.").
Proof.
  split.
  - apply (proj1 decode_requires_samplerate). reflexivity.
  - apply (proj1 (proj2 decode_requires_samplerate) at_1MHz 0 126 1000000).
    vm_compute. reflexivity.
Defined.

(** ** Sampling instants and the bit clock *)

(** Sample numbers that grow strictly, starting above [prev]. *)
Fixpoint increasing (prev : Z) (data : list (Z * Z)) : Prop :=
  match data with
  | [] => True
  | (sn, _) :: rest => prev < sn /\ increasing sn rest
  end.

Fixpoint last_sn (prev : Z) (data : list (Z * Z)) : Z :=
  match data with
  | [] => prev
  | (sn, _) :: rest => last_sn sn rest
  end.

Lemma increasing_app (prev : Z) (l1 l2 : list (Z * Z)) :
  increasing prev (l1 ++ l2) ->
  increasing prev l1 /\ increasing (last_sn prev l1) l2.
Proof.
  revert prev. induction l1 as [|[sn pin] l1 IH]; intros prev; cbn.
  - auto.
  - intros [H1 H2]. destruct (IH _ H2). auto.
Qed.

(** One step keeps [run_start] at or below the current sample number, keeps
    the bit clock, and never divides by zero. *)
Lemma decode_sample_keeps (d : Decoder) (sn pin : Z) :
  run_start d <= samplenum d -> samplenum d < sn ->
  let o := decode_sample (sn, pin) d in
  samplenum (out_state o) = sn /\
  run_start (out_state o) <= sn /\
  skip_per_bit (out_state o) = skip_per_bit d /\
  out_res o <> inl ZeroDivisionError.
Proof.
  intros Hle Hlt o. subst o. open_decoder d. run.
  destruct state0; run.
  - destruct (run_bit0 =? pin); run; [repeat split; (lia || discriminate)|].
    destruct sample_usec0; run; [|repeat split; (lia || discriminate)].
    destruct (PyFloat.int_mul _ _) eqn:E; run.
    + apply int_mul_raises in E. subst. repeat split; (lia || discriminate).
    + repeat (break_if; run); repeat split; (lia || discriminate).
  - repeat (break_if; run); repeat split; (lia || discriminate).
  - destruct skip_per_bit0 as [skip|]; run; [|repeat split; (lia || discriminate)].
    destruct (sn =? _) eqn:Hn; run; [|repeat split; (lia || discriminate)].
    apply Z.eqb_eq in Hn.
    destruct (PyFloat.int_truediv _ _) eqn:E; run.
    { apply int_truediv_raises in E. destruct E as [[-> ->]| ->].
      - lia.
      - repeat split; (lia || discriminate). }
    destruct (PyFloat.round _) eqn:E'; run.
    { apply round_raises in E'. destruct E' as [-> | ->];
        repeat split; (lia || discriminate). }
    destruct (py_shl _ _) eqn:E''.
    + apply py_shl_raises in E''. subst.
      repeat (break_if; run); repeat split; (lia || discriminate).
    + repeat (break_if; run); repeat split; (lia || discriminate).
  - repeat (break_if; run); repeat split; (lia || discriminate).
Qed.

Lemma for_each_keeps (data : list (Z * Z)) (d : Decoder) :
  run_start d <= samplenum d -> increasing (samplenum d) data ->
  let o := for_each decode_sample data d in
  out_res o <> inl ZeroDivisionError /\
  (out_res o = inr tt ->
   samplenum (out_state o) = last_sn (samplenum d) data /\
   run_start (out_state o) <= samplenum (out_state o) /\
   skip_per_bit (out_state o) = skip_per_bit d).
Proof.
  revert d. induction data as [|[sn pin] data IH]; intros d Hle Hinc; cbn zeta.
  - cbn. split; [discriminate | auto].
  - destruct Hinc as [Hlt Hinc].
    destruct (decode_sample_keeps d sn pin Hle Hlt) as (K1 & K2 & K3 & K4).
    destruct (decode_sample (sn, pin) d) as [d1 a1 [e1|[]]] eqn:E; cbn in K1, K2, K3, K4.
    + rewrite (for_each_cons_raise _ _ _ _ _ _ E). cbn. split; [exact K4 | discriminate].
    + rewrite (for_each_cons_ok _ _ _ _ _ E). cbn [prepend out_res out_state].
      subst sn. destruct (IH d1) as [I1 I2]; [lia | assumption |].
      split; [exact I1|]. intros Hok. destruct (I2 Hok) as (J1 & J2 & J3).
      cbn [last_sn]. rewrite J3. auto.
Qed.

(** With a bit clock of 0 samples per bit [READ_BYTE] never reaches a
    sampling instant: it emits nothing and stays where it is. *)
Lemma read_byte_stalls (data : list (Z * Z)) (d : Decoder) :
  state d = READ_BYTE -> skip_per_bit d = Some 0 ->
  run_start d <= samplenum d -> increasing (samplenum d) data ->
  let o := for_each decode_sample data d in
  out_res o = inr tt /\ out_anns o = [] /\
  state (out_state o) = READ_BYTE /\ bit (out_state o) = bit d /\
  channel (out_state o) = channel d /\ byte (out_state o) = byte d.
Proof.
  revert d. induction data as [|[sn pin] data IH]; intros d Hs Hk Hle Hinc; cbn zeta.
  - cbn. repeat split; auto.
  - destruct Hinc as [Hlt Hinc].
    assert (Hn : sn <> run_start d + (bit d + 1) * 0) by lia.
    rewrite (for_each_cons_ok _ _ _ _ _ (read_byte_accumulate d sn pin 0 Hs Hk Hn)).
    cbn [prepend out_res out_state out_anns app].
    destruct (IH (set_aggreg (aggreg d + pin)
                    (set_next_sample (run_start d + (bit d + 1) * 0)
                       (set_samplenum sn d)))) as (I1 & I2 & I3 & I4 & I5 & I6);
      try (now destruct d); try (destruct d; cbn in *; lia).
Qed.

(** The bit clock [metadata] derives from a sample rate. *)
Definition skip_per_bit_at (v : Z) : option Z :=
  skip_per_bit (out_state (metadata SRD_CONF_SAMPLERATE v init)).

(** The same computation on the machine's binary64 numbers:
    [sample_usec] is positive and [4 / sample_usec] lies strictly between
    0 and 1. *)
Definition prim_of (z : Z) : PrimFloat.float :=
  PrimFloat.of_uint63 (Uint63.of_Z z).

Definition no_bit_clock (v : Z) : bool :=
  let u := PrimFloat.mul (PrimFloat.div (prim_of 1) (prim_of v))
                         (prim_of 1000000) in
  let r := PrimFloat.div (prim_of 4) u in
  PrimFloat.ltb (prim_of 0) u && PrimFloat.ltb (prim_of 0) r
  && PrimFloat.ltb r (prim_of 1).

Lemma prim_of_spec (z : Z) :
  0 <= z < 2 ^ 63 ->
  binary_normalize PyFloat.prec PyFloat.emax z 0 false
  = FloatOps.Prim2SF (prim_of z).
Proof.
  intros Hz. unfold prim_of. rewrite FloatAxioms.of_uint63_spec.
  change Uint63Axioms.to_Z with Uint63.to_Z.
  rewrite Uint63.of_Z_spec. rewrite Z.mod_small; [reflexivity|].
  change Uint63.wB with (2 ^ 63). lia.
Qed.

Lemma digits2_pos_bound (m : positive) :
  Z.pos m < 2 ^ Z.pos (digits2_pos m).
Proof.
  induction m as [m IH|m IH|]; cbn [digits2_pos].
  - rewrite Pos2Z.inj_succ, Z.pow_succ_r by lia. lia.
  - rewrite Pos2Z.inj_succ, Z.pow_succ_r by lia. lia.
  - reflexivity.
Qed.

Lemma valid_mantissa_bound (m : positive) (e : Z) :
  valid_binary PyFloat.prec PyFloat.emax (S754_finite false m e) = true ->
  Z.pos m < 2 ^ 53.
Proof.
  unfold valid_binary, bounded, canonical_mantissa, fexp, emin,
    PyFloat.prec, PyFloat.emax.
  intros H. apply andb_prop in H as [H _]. apply Z.eqb_eq in H.
  pose proof (digits2_pos_bound m) as Hd.
  assert (Z.pos (digits2_pos m) <= 53) by lia.
  eapply Z.lt_le_trans; [exact Hd|]. apply Z.pow_le_mono_r; lia.
Qed.

Lemma SFltb_zero_pos (x : spec_float) :
  SFltb (S754_zero false) x = true ->
  (exists m e, x = S754_finite false m e) \/ x = S754_infinity false.
Proof.
  unfold SFltb, SFcompare.
  destruct x as [s|[|]| |[|] m e]; intros H; try discriminate H.
  - now right.
  - left. now exists m, e.
Qed.

Lemma SFltb_finite_pos (m m' : positive) (e e' : Z) :
  SFltb (S754_finite false m e) (S754_finite false m' e') = true ->
  e < e' \/ (e = e' /\ (m < m')%positive).
Proof.
  unfold SFltb, SFcompare.
  destruct (Z.compare_spec e e') as [->|He|He]; intros H.
  - right. split; [reflexivity|].
    destruct (Pos.compare_cont Eq m m') eqn:E; try discriminate H.
    exact E.
  - now left.
  - discriminate H.
Qed.

Lemma prim_pos_nonzero (x : PrimFloat.float) :
  PrimFloat.ltb (prim_of 0) x = true ->
  PyFloat.is_zero (FloatOps.Prim2SF x) = false.
Proof.
  rewrite FloatAxioms.ltb_spec.
  change (FloatOps.Prim2SF (prim_of 0)) with (S754_zero false).
  intros H. apply SFltb_zero_pos in H as [(m & e & ->)| ->]; reflexivity.
Qed.

Lemma prim_below_one (x : PrimFloat.float) :
  PrimFloat.ltb (prim_of 0) x = true ->
  PrimFloat.ltb x (prim_of 1) = true ->
  PyFloat.to_int (FloatOps.Prim2SF x) = inr 0.
Proof.
  rewrite !FloatAxioms.ltb_spec.
  pose proof (FloatAxioms.Prim2SF_valid x) as Hv.
  change (FloatOps.Prim2SF (prim_of 0)) with (S754_zero false).
  change (FloatOps.Prim2SF (prim_of 1))
    with (S754_finite false (2 ^ 52) (-52)).
  intros H0 H1.
  apply SFltb_zero_pos in H0 as [(m & e & Hx)| Hx]; rewrite Hx in *.
  - apply valid_mantissa_bound in Hv.
    assert (He : e < 0 /\ Z.pos m < 2 ^ (- e)).
    { apply SFltb_finite_pos in H1 as [He|[-> Hm]].
      - split; [lia|]. eapply Z.lt_le_trans; [exact Hv|].
        apply Z.pow_le_mono_r; lia.
      - split; [reflexivity|].
        replace (2 ^ (- (-52))) with (Z.pos (2 ^ 52)%positive)
          by (vm_compute; reflexivity).
        exact Hm. }
    destruct He as [He Hm]. unfold PyFloat.to_int.
    destruct (0 <=? e) eqn:E; [lia|].
    rewrite Z.div_small by lia. reflexivity.
  - discriminate H1.
Qed.

(** A rate on which the machine check succeeds has no bit clock. *)
Lemma no_bit_clock_sound (v : Z) :
  0 < v < 2 ^ 53 -> no_bit_clock v = true -> skip_per_bit_at v = Some 0.
Proof.
  intros Hv H. unfold no_bit_clock in H. cbv zeta in H.
  apply andb_prop in H as [H Hr1]. apply andb_prop in H as [Hu Hr0].
  assert (A : PyFloat.int_truediv 1 v
              = inr (FloatOps.Prim2SF
                       (PrimFloat.div (prim_of 1) (prim_of v)))).
  { unfold PyFloat.int_truediv.
    destruct (v =? 0) eqn:E0; [lia|].
    change (1 =? 0) with false. cbv iota.
    replace (Z.abs v <? 2 ^ 53) with true by lia.
    change (Z.abs 1 <? 2 ^ 53) with true. cbv iota beta delta [andb].
    rewrite FloatAxioms.div_spec, <- !prim_of_spec by lia. reflexivity. }
  assert (B : forall q, PyFloat.mul_int (FloatOps.Prim2SF q) 1000000
              = inr (FloatOps.Prim2SF (PrimFloat.mul q (prim_of 1000000)))).
  { intros q. rewrite FloatAxioms.mul_spec, <- prim_of_spec by lia.
    reflexivity. }
  assert (C : forall u, PyFloat.is_zero (FloatOps.Prim2SF u) = false ->
              PyFloat.int_div 4 (FloatOps.Prim2SF u)
              = inr (FloatOps.Prim2SF (PrimFloat.div (prim_of 4) u))).
  { intros u Hz. rewrite FloatAxioms.div_spec, <- prim_of_spec by lia.
    unfold PyFloat.int_div, PyFloat.div. rewrite Hz. reflexivity. }
  unfold skip_per_bit_at, metadata, init. rewrite Z.eqb_refl.
  run_monad. rewrite A. run_monad. rewrite B. run_monad.
  rewrite (C _ (prim_pos_nonzero _ Hu)). run_monad.
  rewrite (prim_below_one _ Hr0 Hr1). reflexivity.
Qed.

(** Every sample rate from 1 to 249999 gives [int(4 / sample_usec) = 0];
    checked rate by rate on the binary64 arithmetic. *)
Lemma skip_per_bit_below_250000 (v : Z) :
  0 < v < 250000 -> skip_per_bit_at v = Some 0.
Proof.
  intros Hv.
  assert (H : all_from no_bit_clock 1 (Z.to_nat 249999) = true)
    by (vm_cast_no_check (eq_refl true)).
  pose proof (all_from_spec _ _ _ H v) as Hz.
  rewrite Z2Nat.id in Hz by lia. specialize (Hz ltac:(lia)).
  apply no_bit_clock_sound; [lia | exact Hz].
Qed.

Example skip_per_bit_at_250000 : skip_per_bit_at 250000 = Some 1.
Proof. vm_compute. reflexivity. Qed.

Lemma decode_sample_samplerate (ev : Z * Z) (d : Decoder) :
  samplerate (out_state (decode_sample ev d)) = samplerate d.
Proof.
  destruct ev as [sn pin]. destruct d. run.
  repeat (break_if; run); reflexivity.
Qed.

Lemma for_each_samplerate (data : list (Z * Z)) (d : Decoder) :
  samplerate (out_state (for_each decode_sample data d)) = samplerate d.
Proof.
  revert d. induction data as [|ev data IH]; intros d; [reflexivity|].
  pose proof (decode_sample_samplerate ev d) as H.
  destruct (decode_sample ev d) as [d1 a1 [e1|[]]] eqn:E; cbn in H.
  - now rewrite (for_each_cons_raise _ _ _ _ _ _ E).
  - rewrite (for_each_cons_ok _ _ _ _ _ E). cbn. now rewrite IH.
Qed.

(** C10: in [READ_BYTE] a bit window is evaluated only by the sample whose
    number is [run_start + (bit + 1) * skip_per_bit]; any other sample only
    adds its level to the sum.  On sample numbers that grow strictly the
    division by [skip_per_bit] is never a division by zero.  For a sample
    rate below 250000 the bit clock [int(4 / sample_usec)] is 0, and once
    the decoder is in [READ_BYTE] it emits nothing more and raises nothing:
    it stays in [READ_BYTE] at the same bit. *)
Theorem bit_window_timing :
  (forall (d : Decoder) (sn pin skip : Z),
     state d = READ_BYTE -> skip_per_bit d = Some skip ->
     sn <> run_start d + (bit d + 1) * skip ->
     decode_sample (sn, pin) d =
       MkOut (set_aggreg (aggreg d + pin)
                (set_next_sample (run_start d + (bit d + 1) * skip)
                   (set_samplenum sn d)))
             [] (inr tt)) /\
  (forall (v ss es : Z) (data : list (Z * Z)),
     increasing (-1) data ->
     out_res (decode ss es data (out_state (metadata SRD_CONF_SAMPLERATE v init)))
       <> inl ZeroDivisionError) /\
  (forall v : Z, 0 < v < 250000 -> skip_per_bit_at v = Some 0) /\
  (forall (v ss es ss' es' : Z) (data1 data2 : list (Z * Z)),
     0 < v < 250000 ->
     increasing (-1) (data1 ++ data2) ->
     let o1 := decode ss es data1 (out_state (metadata SRD_CONF_SAMPLERATE v init)) in
     out_res o1 = inr tt ->
     state (out_state o1) = READ_BYTE ->
     let o2 := decode ss' es' data2 (out_state o1) in
     out_res o2 = inr tt /\ out_anns o2 = [] /\
     state (out_state o2) = READ_BYTE /\
     bit (out_state o2) = bit (out_state o1)).
Proof.
  assert (Hinit : forall v,
            let d0 := out_state (metadata SRD_CONF_SAMPLERATE v init) in
            samplerate d0 = Some v /\ run_start d0 = -1 /\ samplenum d0 = -1).
  { intros v. cbn zeta. split; [apply metadata_sets_samplerate|].
    unfold metadata. rewrite Z.eqb_refl. unfold init. run.
    repeat (break_if; run); auto. }
  split; [|split; [|split]].
  - intros d sn pin skip. apply read_byte_accumulate.
  - intros v ss es data Hinc.
    destruct (Hinit v) as (H1 & H2 & H3).
    rewrite (decode_configured _ _ v) by assumption.
    apply for_each_keeps; [lia | now rewrite H3].
  - apply skip_per_bit_below_250000.
  - intros v ss es ss' es' data1 data2 Hv Hinc o1 Hok Hs o2. subst o1 o2.
    destruct (Hinit v) as (H1 & H2 & H3).
    set (d0 := out_state (metadata SRD_CONF_SAMPLERATE v init)) in *.
    rewrite (decode_configured ss es v data1 d0 H1) in Hok, Hs |- *.
    apply increasing_app in Hinc. destruct Hinc as [Hi1 Hi2].
    destruct (for_each_keeps data1 d0) as [_ K]; [lia | now rewrite H3 |].
    destruct (K Hok) as (K1 & K2 & K3).
    set (d1 := out_state (for_each decode_sample data1 d0)) in *.
    assert (Hsr : samplerate d1 = Some v)
      by (subst d1; now rewrite for_each_samplerate).
    rewrite (decode_configured _ _ v) by assumption.
    destruct (read_byte_stalls data2 d1) as (S1 & S2 & S3 & S4 & _); auto.
    + rewrite K3. apply (skip_per_bit_below_250000 v Hv).
    + rewrite K1, H3. exact Hi2.
Qed.

(** At 200 kHz (5 us per sample): idle, a 100 us break, a mark after break
    and the edge that starts the first byte: samples 0..27. *)
Definition slow_trace_to_read_byte : list (Z * Z) :=
  trace 0 [(1, 4%nat); (0, 20%nat); (1, 3%nat); (0, 1%nat)].

Definition slow_trace_rest : list (Z * Z) :=
  trace 28 [(0, 3%nat); (1, 10%nat); (0, 10%nat)].

Lemma bit_window_timing_witness :
  let d0 := out_state (metadata SRD_CONF_SAMPLERATE 200000 init) in
  let o1 := decode 0 28 slow_trace_to_read_byte d0 in
  let o2 := decode 28 51 slow_trace_rest (out_state o1) in
  skip_per_bit d0 = Some 0 /\
  state (out_state o1) = READ_BYTE /\
  out_res o1 <> inl ZeroDivisionError /\
  decode_sample (29, 0) (out_state o1) =
    MkOut (set_aggreg (aggreg (out_state o1) + 0)
             (set_next_sample (run_start (out_state o1) + (bit (out_state o1) + 1) * 0)
                (set_samplenum 29 (out_state o1))))
          [] (inr tt) /\
  out_res o2 = inr tt /\ out_anns o2 = [] /\ state (out_state o2) = READ_BYTE.
Proof.
  intros d0 o1 o2.
  assert (Hv : 0 < 200000 < 250000) by lia.
  assert (A1 : increasing (-1) slow_trace_to_read_byte)
    by (vm_compute; repeat split).
  assert (A2 : increasing (-1) (slow_trace_to_read_byte ++ slow_trace_rest))
    by (vm_compute; repeat split).
  assert (A3 : out_res o1 = inr tt) by (vm_compute; reflexivity).
  assert (A4 : state (out_state o1) = READ_BYTE) by (vm_compute; reflexivity).
  assert (A5 : skip_per_bit (out_state o1) = Some 0) by (vm_compute; reflexivity).
  assert (A6 : 29 <> run_start (out_state o1) + (bit (out_state o1) + 1) * 0)
    by (vm_compute; discriminate).
  destruct bit_window_timing as (T1 & T2 & T3 & T4).
  pose proof (T1 (out_state o1) 29 0 0 A4 A5 A6) as W1.
  pose proof (T2 200000 0 28 slow_trace_to_read_byte A1) as W2.
  pose proof (T3 200000 Hv) as W3.
  pose proof (T4 200000 0 28 28 51 slow_trace_to_read_byte slow_trace_rest
                Hv A2 A3 A4) as (W4 & W5 & W6 & _).
  split; [exact W3|]. split; [exact A4|]. split; [exact W2|]. split; [exact W1|].
  split; [exact W4|]. split; [exact W5 | exact W6].
Defined.

End Dmx512_Facts.

(** * Properties of the SPI flash decoder *)

Module SpiFlash_Facts.
Import SpiFlash.

Ltac run_monad :=
  cbv beta iota zeta delta
    [decode end_current_transaction call output_data_block putx putb put_block
     cmd_longname lookup_device_name dispatch get_handler accumulate_addr
     next_cmdstate in_2_3_4 ids_at
     handle_wren handle_todo handle_wrdi handle_rdid handle_rdsr handle_wrsr
     handle_read handle_fast_read handle_2read handle_se handle_be handle_ce
     handle_ce2 handle_pp handle_cp handle_dp handle_rdp_res handle_rems
     handle_rems2 handle_enso handle_exso handle_rdscur handle_wrscur
     handle_esry handle_dsry
     bind gets modify emit when ret raise lift attr try_except_KeyError
     out_state out_anns out_res
     on_end_transaction state cmdstate addr data ss es ss_block es_block
     device_id ids manufacturer_id_first format
     set_on_end_transaction set_state set_cmdstate set_addr set_data set_ss
     set_es set_ss_block set_es_block set_device_id set_ids
     set_manufacturer_id_first
     py_shl app negb orb andb String.eqb Ascii.eqb Bool.eqb].

Ltac is_pos_lit p :=
  lazymatch p with
  | xH => idtac
  | xO ?q => is_pos_lit q
  | xI ?q => is_pos_lit q
  end.

Ltac is_Z_lit z :=
  lazymatch z with
  | Z0 => idtac
  | Zpos ?p => is_pos_lit p
  | Zneg ?p => is_pos_lit p
  end.

(** Sums, differences and products of literals are replaced by their value. *)
Ltac fold_arith :=
  repeat match goal with
    | |- context [Z.add ?a ?b] =>
        is_Z_lit a; is_Z_lit b;
        let v := eval vm_compute in (Z.add a b) in change (Z.add a b) with v
    | |- context [Z.sub ?a ?b] =>
        is_Z_lit a; is_Z_lit b;
        let v := eval vm_compute in (Z.sub a b) in change (Z.sub a b) with v
    | |- context [Z.mul ?a ?b] =>
        is_Z_lit a; is_Z_lit b;
        let v := eval vm_compute in (Z.mul a b) in change (Z.mul a b) with v
    end.

Ltac run_arith :=
  fold_arith;
  cbn [Z.eqb Z.leb Z.ltb Z.compare Pos.eqb Pos.compare Pos.compare_cont].

Ltac run := repeat progress (run_monad; run_arith).

(** The text [output_data_block] prints for the buffered bytes. *)
Definition block_text (fmt : Format) (dat : list Z) : PyError + string :=
  match fmt with
  | Hex => inr (PyStr.join " " (map (PyStr.hex_pad 2) dat))
  | Ascii =>
      match map_chr dat with
      | inl e => inl e
      | inr cs => inr (PyStr.join "" cs)
      end
  end.

(** The fields [end_current_transaction] resets. *)
Definition flushed (d : Decoder) : Decoder :=
  set_data [] (set_addr 0 (set_cmdstate 1 (set_state None d))).

Section Sessions.
Variable cmds : gmap Z (Handler * string).
Variable device_name : gmap Z string.

Lemma cs_change_without_callback (d : Decoder) (ss0 es0 mosi miso : Z) :
  on_end_transaction d = None ->
  decode cmds device_name ss0 es0 ("CS-CHANGE"%string, mosi, miso) d =
    MkOut (flushed (set_es es0 (set_ss ss0 d))) [] (inr tt).
Proof.
  intros H. destruct d; cbn in H; subst. run. reflexivity.
Qed.

Lemma cs_change_with_callback (d : Decoder) (ss0 es0 mosi miso : Z)
    (label text : string) :
  on_end_transaction d = Some (OutputDataBlock label) ->
  block_text (format d) (data d) = inr text ->
  decode cmds device_name ss0 es0 ("CS-CHANGE"%string, mosi, miso) d =
    MkOut (flushed (set_on_end_transaction None
             (set_es_block es0 (set_es es0 (set_ss ss0 d)))))
          [Ann (ss_block d) es0 ann_bits2
             [(label ++ " " ++ PyStr.str (Z.of_nat (length (data d))) ++
               " bytes: " ++ text)%string]]
          (inr tt).
Proof.
  intros H Ht. destruct d; cbn in H, Ht; subst. run.
  destruct format0; cbn in Ht; run.
  - injection Ht as <-. reflexivity.
  - destruct (map_chr data0); [discriminate|]. injection Ht as <-. reflexivity.
Qed.

(** The packets of one session as the host passes them to [decode]. *)
Definition data_packet (p : Z * Z * (Z * Z)) : Z * Z * (string * Z * Z) :=
  let '(s, e, (mosi, miso)) := p in (s, e, ("DATA"%string, mosi, miso)).

Lemma page_program_before_data
    (d : Decoder) (op : Z) (name : string) (s0 e0 miso0 : Z)
    (addr_bytes : list (Z * Z * (Z * Z))) :
  on_end_transaction d = None -> state d = None ->
  cmds !! op = Some (PP, name) ->
  (length addr_bytes <= 3)%nat ->
  let o := decode_all cmds device_name
             (data_packet (s0, e0, (op, miso0)) :: map data_packet addr_bytes) d in
  out_res o = inr tt /\
  on_end_transaction (out_state o) = None /\
  Forall (fun a => ann_class a <> ann_bits2) (out_anns o).
Proof.
  intros Hcb Hst Hcmd Hlen o. subst o.
  destruct d; cbn in Hcb, Hst; subst.
  destruct addr_bytes as [|[[s1 e1] [m1 i1]] [|[[s2 e2] [m2 i2]]
                          [|[[s3 e3] [m3 i3]] [|? ?]]]];
    cbn in Hlen; try lia; clear Hlen;
    unfold decode_all; cbn [map data_packet for_each];
    repeat (run; rewrite ?Hcmd); cbn;
    (split; [reflexivity|]); (split; [reflexivity|]);
    repeat constructor; cbn; discriminate.
Qed.

(** C3: a CS-CHANGE packet runs the stored callback, if there is one, once:
    it prints one data block and is cleared; then the opcode is none, the
    offset 1, the address 0 and the buffer empty, so that a second CS-CHANGE
    prints nothing.  A page-program session cut before its first data byte
    has stored no callback and prints no data block. *)
Theorem cs_change_flushes_session :
  (forall (d : Decoder) (ss0 es0 mosi miso : Z),
     on_end_transaction d = None ->
     decode cmds device_name ss0 es0 ("CS-CHANGE"%string, mosi, miso) d =
       MkOut (flushed (set_es es0 (set_ss ss0 d))) [] (inr tt)) /\
  (forall (d : Decoder) (ss0 es0 mosi miso : Z) (label text : string),
     on_end_transaction d = Some (OutputDataBlock label) ->
     block_text (format d) (data d) = inr text ->
     let o := decode cmds device_name ss0 es0 ("CS-CHANGE"%string, mosi, miso) d in
     o = MkOut (flushed (set_on_end_transaction None
                  (set_es_block es0 (set_es es0 (set_ss ss0 d)))))
               [Ann (ss_block d) es0 ann_bits2
                  [(label ++ " " ++ PyStr.str (Z.of_nat (length (data d))) ++
                    " bytes: " ++ text)%string]]
               (inr tt) /\
     on_end_transaction (out_state o) = None /\
     state (out_state o) = None /\ cmdstate (out_state o) = 1 /\
     addr (out_state o) = 0 /\ data (out_state o) = [] /\
     forall ss1 es1 mosi1 miso1,
       out_anns (decode cmds device_name ss1 es1
                   ("CS-CHANGE"%string, mosi1, miso1) (out_state o)) = []) /\
  (forall (d : Decoder) (op : Z) (name : string) (s0 e0 miso0 : Z)
          (addr_bytes : list (Z * Z * (Z * Z))) (ss1 es1 mosi1 miso1 : Z),
     on_end_transaction d = None -> state d = None ->
     cmds !! op = Some (PP, name) ->
     (length addr_bytes <= 3)%nat ->
     let o := decode_all cmds device_name
                (data_packet (s0, e0, (op, miso0)) :: map data_packet addr_bytes) d in
     out_res o = inr tt /\
     Forall (fun a => ann_class a <> ann_bits2) (out_anns o) /\
     decode cmds device_name ss1 es1 ("CS-CHANGE"%string, mosi1, miso1) (out_state o) =
       MkOut (flushed (set_es es1 (set_ss ss1 (out_state o)))) [] (inr tt)).
Proof.
  split; [|split].
  - intros. now apply cs_change_without_callback.
  - intros d ss0 es0 mosi miso label text Hcb Ht o. subst o.
    rewrite (cs_change_with_callback d ss0 es0 mosi miso label text Hcb Ht).
    cbn [out_state out_anns].
    split; [reflexivity|]. do 5 (split; [now destruct d|]).
    intros. rewrite cs_change_without_callback; [reflexivity | now destruct d].
  - intros d op name s0 e0 miso0 addr_bytes ss1 es1 mosi1 miso1 Hcb Hst Hcmd Hlen o.
    destruct (page_program_before_data d op name s0 e0 miso0 addr_bytes
                Hcb Hst Hcmd Hlen) as (H1 & H2 & H3).
    fold o in H1, H2, H3.
    split; [exact H1|]. split; [exact H3|].
    now apply cs_change_without_callback.
Qed.

(** ** Sector erase *)

Definition erase_address (a1 a2 a3 : Z) : Z :=
  Z.lor (Z.lor (Z.lor 0 (Z.shiftl a1 16)) (Z.shiftl a2 8)) (Z.shiftl a3 0).

(** The last byte of a sector erase: the address is printed, a misaligned
    address adds one annotation of class 101, and the opcode is cleared. *)
Lemma sector_erase_completion
    (d : Decoder) (op : Z) (name : string)
    (p0 p1 p2 p3 : Z * Z * (Z * Z)) :
  state d = None -> cmds !! op = Some (SE, name) ->
  fst (snd p0) = op ->
  let a := erase_address (fst (snd p1)) (fst (snd p2)) (fst (snd p3)) in
  let o := decode_all cmds device_name (map data_packet [p0; p1; p2; p3]) d in
  out_res o = inr tt /\
  state (out_state o) = None /\
  out_anns o =
    [Ann (fst (fst p0)) (snd (fst p0)) 8 [("Command: " ++ name)%string];
     Ann (fst (fst p0)) (snd (fst p3)) ann_bits
       [("Erase sector " ++ PyStr.str a ++ " (0x" ++ PyStr.hex_pad 6 a ++ ")")%string]]
    ++ (if a mod 4096 =? 0 then []
        else [Ann (fst (fst p0)) (snd (fst p3)) 101
                ["Warning: Invalid sector address!"%string]]).
Proof.
  destruct p0 as [[s0 e0] [m0 i0]], p1 as [[s1 e1] [m1 i1]],
           p2 as [[s2 e2] [m2 i2]], p3 as [[s3 e3] [m3 i3]].
  cbn [fst snd]. intros Hst Hcmd ->. cbv zeta. unfold erase_address.
  destruct d; cbn in Hst; subst.
  unfold decode_all; cbn [map data_packet for_each].
  repeat (run; rewrite ?Hcmd).
  destruct (_ mod 4096 =? 0); run; cbn; auto.
Qed.

(** ** Write enable and write disable *)

Lemma write_enable_step (d : Decoder) (op : Z) (name : string) (ss0 es0 miso : Z) :
  state d = None -> cmds !! op = Some (WREN, name) ->
  decode cmds device_name ss0 es0 ("DATA"%string, op, miso) d =
    MkOut (set_state None (set_cmdstate 1 (set_state (Some op)
             (set_es es0 (set_ss ss0 d)))))
          [Ann ss0 es0 0 [("Command: " ++ name)%string]] (inr tt).
Proof.
  intros Hst Hcmd. destruct d; cbn in Hst; subst.
  repeat (run; rewrite ?Hcmd). reflexivity.
Qed.

Lemma write_disable_first_step
    (d : Decoder) (op : Z) (name : string) (ss0 es0 miso : Z) :
  state d = None -> cmds !! op = Some (WRDI, name) ->
  decode cmds device_name ss0 es0 ("DATA"%string, op, miso) d =
    MkOut (set_cmdstate 1 (set_state (Some op) (set_es es0 (set_ss ss0 d))))
          [] (inr tt).
Proof.
  intros Hst Hcmd. destruct d; cbn in Hst; subst.
  repeat (run; rewrite ?Hcmd). reflexivity.
Qed.

Lemma write_disable_next_step
    (d : Decoder) (op : Z) (name : string) (ss0 es0 mosi miso : Z) :
  state d = Some op -> cmds !! op = Some (WRDI, name) ->
  decode cmds device_name ss0 es0 ("DATA"%string, mosi, miso) d =
    MkOut (set_es es0 (set_ss ss0 d)) [] (inr tt).
Proof.
  intros Hst Hcmd. destruct d; cbn in Hst; subst.
  repeat (run; rewrite ?Hcmd). reflexivity.
Qed.

End Sessions.

(** Sessions on the xx25 command table, 8 samples per packet. *)
Definition xx25_decode := decode xx25_cmds xx25_device_name.
Definition xx25_decode_all := decode_all xx25_cmds xx25_device_name.

Definition page_program_two_bytes : list (Z * Z * (Z * Z)) :=
  [(0, 8, (2, 0)); (8, 16, (0, 0)); (16, 24, (16, 0)); (24, 32, (1, 0));
   (32, 40, (65, 0)); (40, 48, (66, 0))].

Lemma cs_change_flushes_session_witness :
  xx25_decode 0 8 ("CS-CHANGE"%string, 1, 0) (init Hex) =
    MkOut (flushed (set_es 8 (set_ss 0 (init Hex)))) [] (inr tt) /\
  (let d := out_state (xx25_decode_all (map data_packet page_program_two_bytes)
                         (init Hex)) in
   out_anns (xx25_decode 48 56 ("CS-CHANGE"%string, 0, 1) d) =
     [Ann 32 56 ann_bits2 ["Page data 2 bytes: 41 42"%string]]) /\
  (let o := xx25_decode_all
              (data_packet (0, 8, (2, 0)) ::
               map data_packet [(8, 16, (0, 0)); (16, 24, (16, 0))]) (init Hex) in
   out_anns (xx25_decode 24 32 ("CS-CHANGE"%string, 0, 1) (out_state o)) = []).
Proof.
  destruct (cs_change_flushes_session xx25_cmds xx25_device_name) as (T1 & T2 & T3).
  split; [apply T1; reflexivity|]. split.
  - intros d.
    assert (A1 : on_end_transaction d = Some (OutputDataBlock "Page data"))
      by (vm_compute; reflexivity).
    assert (A2 : block_text (format d) (data d) = inr "41 42"%string)
      by (vm_compute; reflexivity).
    destruct (T2 d 48 56 0 1 _ _ A1 A2) as [E _].
    unfold xx25_decode. rewrite E. vm_compute. reflexivity.
  - intros o.
    assert (A1 : xx25_cmds !! 2 = Some (PP, "Page program"%string))
      by (vm_compute; reflexivity).
    destruct (T3 (init Hex) 2 "Page program"%string 0 8 0
                [(8, 16, (0, 0)); (16, 24, (16, 0))] 24 32 0 1
                eq_refl eq_refl A1 ltac:(cbn; lia)) as (_ & _ & E).
    unfold xx25_decode, o, xx25_decode_all. rewrite E. reflexivity.
Defined.

(** C5: a sector erase of address 4097 prints its warning in class 101; no
    annotation of the session is in the [warnings] class, 26.  The opcode is
    cleared all the same. *)
Theorem sector_erase_warning_class :
  let o := xx25_decode_all
             (map data_packet [(0, 8, (32, 0)); (8, 16, (0, 0));
                               (16, 24, (16, 0)); (24, 32, (1, 0))])
             (init Hex) in
  out_anns o =
    [Ann 0 8 8 ["Command: Sector erase"%string];
     Ann 0 32 ann_bits ["Erase sector 4097 (0x001001)"%string];
     Ann 0 32 101 ["Warning: Invalid sector address!"%string]] /\
  Forall (fun a => ann_class a <> ann_warnings) (out_anns o) /\
  state (out_state o) = None.
Proof.
  vm_compute. split; [reflexivity|]. split; [|reflexivity].
  repeat constructor; discriminate.
Qed.

(** An aligned address, 4096, prints no warning at all. *)
Lemma sector_erase_aligned :
  out_anns (xx25_decode_all
              (map data_packet [(0, 8, (32, 0)); (8, 16, (0, 0));
                                (16, 24, (16, 0)); (24, 32, (0, 0))])
              (init Hex)) =
    [Ann 0 8 8 ["Command: Sector erase"%string];
     Ann 0 32 ann_bits ["Erase sector 4096 (0x001000)"%string]].
Proof. vm_compute. reflexivity. Qed.

(** C6, as stated, fails for write disable: after the opcode byte the opcode
    is still active, and a write-enable opcode that follows is swallowed
    without its command annotation. *)
Lemma write_disable_keeps_opcode :
  let o := xx25_decode 0 8 ("DATA"%string, 4, 0) (init Hex) in
  state (out_state o) <> None /\
  xx25_decode 8 16 ("DATA"%string, 6, 0) (out_state o) =
    MkOut (set_es 16 (set_ss 8 (out_state o))) [] (inr tt).
Proof. vm_compute. split; [discriminate | reflexivity]. Qed.

(** C6, amended: write enable is complete after its opcode byte, which is
    annotated and clears the opcode; write disable is a placeholder that
    annotates nothing and leaves the opcode active, so every further data
    byte of the session goes to the same placeholder. *)
Theorem write_enable_completes_write_disable_holds
    (cmds : gmap Z (Handler * string)) (device_name : gmap Z string)
    (d : Decoder) (op : Z) (name : string) (ss0 es0 miso : Z) :
  state d = None ->
  let o := decode cmds device_name ss0 es0 ("DATA"%string, op, miso) d in
  (cmds !! op = Some (WREN, name) ->
     out_res o = inr tt /\
     out_anns o = [Ann ss0 es0 0 [("Command: " ++ name)%string]] /\
     state (out_state o) = None) /\
  (cmds !! op = Some (WRDI, name) ->
     out_res o = inr tt /\ out_anns o = [] /\
     state (out_state o) = Some op /\
     forall (d' : Decoder) (ss1 es1 mosi1 miso1 : Z),
       state d' = Some op ->
       decode cmds device_name ss1 es1 ("DATA"%string, mosi1, miso1) d' =
         MkOut (set_es es1 (set_ss ss1 d')) [] (inr tt)).
Proof.
  intros Hst o. subst o. split; intros Hcmd.
  - rewrite (write_enable_step cmds device_name d op name) by assumption.
    cbn. auto.
  - rewrite (write_disable_first_step cmds device_name d op name) by assumption.
    cbn. repeat split.
    intros d' ss1 es1 mosi1 miso1 Hst'.
    now apply (write_disable_next_step cmds device_name d' op name).
Qed.

Lemma write_enable_completes_write_disable_holds_witness :
  out_anns (xx25_decode 0 8 ("DATA"%string, 6, 0) (init Hex)) =
    [Ann 0 8 0 ["Command: Write enable"%string]] /\
  state (out_state (xx25_decode 0 8 ("DATA"%string, 6, 0) (init Hex))) = None /\
  state (out_state (xx25_decode 0 8 ("DATA"%string, 4, 0) (init Hex))) = Some 4.
Proof.
  assert (A1 : xx25_cmds !! 6 = Some (WREN, "Write enable"%string))
    by (vm_compute; reflexivity).
  assert (A2 : xx25_cmds !! 4 = Some (WRDI, "Write disable"%string))
    by (vm_compute; reflexivity).
  destruct (write_enable_completes_write_disable_holds xx25_cmds xx25_device_name
              (init Hex) 6 "Write enable"%string 0 8 0 eq_refl) as [W _].
  destruct (write_enable_completes_write_disable_holds xx25_cmds xx25_device_name
              (init Hex) 4 "Write disable"%string 0 8 0 eq_refl) as [_ V].
  destruct (W A1) as (_ & W2 & W3). destruct (V A2) as (_ & _ & V3 & _).
  split; [exact W2|]. split; [exact W3 | exact V3].
Defined.

(** ** Dual I/O de-interleaving *)

(** The split the specification describes, written from its words: of the
    two reconstructed bytes the even-indexed bits go back to the primary
    byte and the odd-indexed bits to the secondary byte, the first byte
    giving the high nibbles. *)
Definition spec_gather (x parity : Z) : Z :=
  Z.b2z (Z.testbit x parity) + 2 * Z.b2z (Z.testbit x (2 + parity)) +
  4 * Z.b2z (Z.testbit x (4 + parity)) + 8 * Z.b2z (Z.testbit x (6 + parity)).

Definition spec_resplit (hi lo : Z) : Z * Z :=
  (16 * spec_gather hi 0 + spec_gather lo 0,
   16 * spec_gather hi 1 + spec_gather lo 1).

Definition interleaved_at (p s hi lo b : Z) : bool :=
  Bool.eqb (Z.testbit hi (2 * b)) (Z.testbit p (4 + b)) &&
  Bool.eqb (Z.testbit hi (2 * b + 1)) (Z.testbit s (4 + b)) &&
  Bool.eqb (Z.testbit lo (2 * b)) (Z.testbit p b) &&
  Bool.eqb (Z.testbit lo (2 * b + 1)) (Z.testbit s b).

Definition dual_bytes_ok (p s : Z) : bool :=
  let '(hi, lo) := decode_dual_bytes p s in
  let '(p', s') := spec_resplit hi lo in
  (p' =? p) && (s' =? s) &&
  (0 <=? hi) && (hi <? 256) && (0 <=? lo) && (lo <? 256) &&
  forallb (interleaved_at p s hi lo) [0; 1; 2; 3].

Lemma dual_bytes_checked (p s : Z) :
  0 <= p < 256 -> 0 <= s < 256 -> dual_bytes_ok p s = true.
Proof.
  intros Hp Hs.
  assert (H : all_from (fun p => all_from (dual_bytes_ok p) 0 256) 0 256 = true)
    by (vm_compute; reflexivity).
  pose proof (all_from_spec _ _ _ H p ltac:(lia)) as H1. cbv beta in H1.
  exact (all_from_spec _ _ _ H1 s ltac:(lia)).
Qed.

(** C4: for two bytes, bit [b] of the primary and of the secondary byte's
    high nibbles are bits [2b] and [2b+1] of the first reconstructed byte,
    those of the low nibbles the same bits of the second; both results are
    bytes, and splitting them again gives the two bytes back. *)
Theorem dual_bytes_round_trip (p s : Z) :
  0 <= p < 256 -> 0 <= s < 256 ->
  let '(hi, lo) := decode_dual_bytes p s in
  spec_resplit hi lo = (p, s) /\
  0 <= hi < 256 /\ 0 <= lo < 256 /\
  forall b, 0 <= b < 4 ->
    Z.testbit hi (2 * b) = Z.testbit p (4 + b) /\
    Z.testbit hi (2 * b + 1) = Z.testbit s (4 + b) /\
    Z.testbit lo (2 * b) = Z.testbit p b /\
    Z.testbit lo (2 * b + 1) = Z.testbit s b.
Proof.
  intros Hp Hs. pose proof (dual_bytes_checked p s Hp Hs) as H.
  unfold dual_bytes_ok in H.
  destruct (decode_dual_bytes p s) as [hi lo].
  destruct (spec_resplit hi lo) as [p' s'].
  repeat (apply andb_prop in H; destruct H as [H ?]).
  repeat match goal with
         | E : (_ =? _) = true |- _ => apply Z.eqb_eq in E
         | E : (_ <=? _) = true |- _ => apply Z.leb_le in E
         | E : (_ <? _) = true |- _ => apply Z.ltb_lt in E
         end.
  subst. repeat split; try assumption.
  all: match goal with
       | F : forallb _ _ = true |- _ =>
           assert (C : b = 0 \/ b = 1 \/ b = 2 \/ b = 3) by lia;
           cbn [forallb] in F;
           repeat (apply andb_prop in F; destruct F as [? F]);
           unfold interleaved_at in *;
           repeat match goal with
                  | E : (_ && _) = true |- _ =>
                      apply andb_prop in E; destruct E
                  | E : Bool.eqb _ _ = true |- _ => apply Bool.eqb_prop in E
                  end;
           destruct C as [-> | [-> | [-> | ->]]]; assumption
       end.
Qed.

Lemma dual_bytes_round_trip_witness :
  spec_resplit (fst (decode_dual_bytes 165 60)) (snd (decode_dual_bytes 165 60))
    = (165, 60).
Proof.
  pose proof (dual_bytes_round_trip 165 60 ltac:(lia) ltac:(lia)) as H.
  destruct (decode_dual_bytes 165 60) as [hi lo]. exact (proj1 H).
Defined.

End SpiFlash_Facts.
